(** * Claude Code Launcher: the terminal-launch subsystem

    A shallow embedding of [src/utils/terminal.ts], [src/settings.ts],
    [src/types.ts] and [src/commands/launch-claude.ts] of the Obsidian
    plugin, followed by the properties of the launch path.

    Conventions.
    - A JavaScript string is a sequence of UTF-16 code units.  It is
      modelled by [string]; the character of code [n] stands for the code
      unit [n], so the development covers the strings whose code units are
      below 256.  Every literal of the source is ASCII.
    - The host runtime (Node's [process.platform], [path] and
      [child_process.spawn]) is a record [Host] passed explicitly.  The
      POSIX flavour of [path] is modelled in [Module PosixPath].
    - A function that may throw returns a [Completion]; an asynchronous
      function returns the state its [Promise] ends in. *)

From Stdlib Require Import String Ascii List Bool Arith NArith Lia.
Import ListNotations.
Open Scope list_scope.
Open Scope string_scope.

(** ** JavaScript string primitives *)

Module JS.

(** [s.slice(n)] for [0 <= n]. *)
Fixpoint drop (n : nat) (s : string) : string :=
  match n, s with
  | O, _ => s
  | S _, EmptyString => EmptyString
  | S k, String _ s' => drop k s'
  end.

(** [s.startsWith(pat)]. *)
Definition startsWith (s pat : string) : bool := prefix pat s.

(** [s.includes(pat)]: [pat] occurs at some position of [s]. *)
Fixpoint includes (s pat : string) : bool :=
  startsWith s pat ||
  match s with
  | EmptyString => false
  | String _ s' => includes s' pat
  end.

(** White space and line terminators of ECMAScript (the class [\s], also
    what [trim] strips), restricted to code units below 256:
    TAB, LF, VT, FF, CR, SPACE and NO-BREAK SPACE. *)
Definition isWhiteSpace (c : ascii) : bool :=
  let n := nat_of_ascii c in
  ((9 <=? n) && (n <=? 13) || (n =? 32) || (n =? 160))%nat.

(** Line terminators below 256: LF and CR.  The regular expression [.]
    (without the [s] flag) matches every other code unit. *)
Definition isLineTerminator (c : ascii) : bool :=
  let n := nat_of_ascii c in ((n =? 10) || (n =? 13))%nat.

Definition isDot (c : ascii) : bool := negb (isLineTerminator c).

(** A text without line terminator: [.+] can run over all of it. *)
Fixpoint singleLine (s : string) : bool :=
  match s with
  | EmptyString => true
  | String c s' => isDot c && singleLine s'
  end.

(** The line feed. *)
Definition LF : string := String (ascii_of_nat 10) "".

Fixpoint trimStart (s : string) : string :=
  match s with
  | EmptyString => EmptyString
  | String c s' => if isWhiteSpace c then trimStart s' else s
  end.

Fixpoint allWhiteSpace (s : string) : bool :=
  match s with
  | EmptyString => true
  | String c s' => isWhiteSpace c && allWhiteSpace s'
  end.

Fixpoint trimEnd (s : string) : string :=
  match s with
  | EmptyString => EmptyString
  | String c s' => if allWhiteSpace s then EmptyString else String c (trimEnd s')
  end.

(** [s.trim()]. *)
Definition trim (s : string) : string := trimEnd (trimStart s).

(** Truthiness of a string: only the empty string is falsy. *)
Definition truthy (s : string) : bool :=
  match s with EmptyString => false | String _ _ => true end.

(** ECMAScript [GetSubstitution] for a match without capture groups:
    in the replacement text [$$] stands for a dollar sign, [$&] for the
    matched text, [$`] for the text before the match and [$'] for the
    text after it; any other [$] (also [$1] and [$<], there being no
    captures) is literal. *)
Fixpoint getSubstitution (matched before after replacement : string) : string :=
  match replacement with
  | EmptyString => EmptyString
  | String c rest =>
      if (c =? "$")%char then
        match rest with
        | EmptyString => String c EmptyString
        | String d rest' =>
            if (d =? "$")%char then
              String "$" (getSubstitution matched before after rest')
            else if (d =? "&")%char then
              matched ++ getSubstitution matched before after rest'
            else if (d =? "`")%char then
              before ++ getSubstitution matched before after rest'
            else if (d =? "'")%char then
              after ++ getSubstitution matched before after rest'
            else String c (getSubstitution matched before after rest)
        end
      else String c (getSubstitution matched before after rest)
  end.

(** [s.replace(/pat/g, replacement)] for a pattern [pat] that is a
    non-empty run of literal characters: every match, leftmost first and
    not overlapping, is replaced.  [before] is the part of the subject
    already scanned and [skip] counts the characters of the current
    match still to be passed over. *)
Fixpoint replaceAllFrom (pat replacement before s : string) (skip : nat) : string :=
  match s with
  | EmptyString => EmptyString
  | String c s' =>
      match skip with
      | S k => replaceAllFrom pat replacement (before ++ String c "") s' k
      | O =>
          if startsWith s pat then
            getSubstitution pat before (drop (String.length pat) s) replacement
            ++ replaceAllFrom pat replacement (before ++ String c "") s'
                 (String.length pat - 1)
          else
            String c (replaceAllFrom pat replacement (before ++ String c "") s' 0)
      end
  end.

Definition replaceAll (pat replacement s : string) : string :=
  replaceAllFrom pat replacement "" s 0.

(** [s.replace(pat, replacement)] for a string pattern: only the first
    occurrence is replaced; without an occurrence [s] is returned. *)
Fixpoint replaceFirstFrom (pat replacement before s : string) : string :=
  if startsWith s pat then
    before ++ getSubstitution pat before (drop (String.length pat) s) replacement
    ++ drop (String.length pat) s
  else
    match s with
    | EmptyString => before
    | String c s' => replaceFirstFrom pat replacement (before ++ String c "") s'
    end.

Definition replaceFirst (pat replacement s : string) : string :=
  replaceFirstFrom pat replacement "" s.

End JS.

(** ** The regular expressions of the source

    [launchTerminal] uses one regular expression that is not a plain
    literal, [/osascript\s+-e\s+'(.+)'/].  Its syntax needs literals,
    greedy repetition of a character class, sequencing and one capturing
    group; the matcher below is the backtracking matcher of ECMAScript
    (continuation passing, longest repetition first) for that syntax. *)

Module RegExp.

Inductive regex : Type :=
| Lit (s : string)                (* a run of literal characters *)
| Plus (cls : ascii -> bool)      (* [c+], greedy, over a character class *)
| Cat (r1 r2 : regex)
| Group (r : regex).              (* capturing group number 1 *)

(** A continuation receives the input still to be read and the text
    captured so far by the group. *)
Definition Cont : Type := string -> string -> option string.

(** [c*], greedy: the longest run first, one character less on failure
    of the continuation. *)
Fixpoint star (cls : ascii -> bool) (s cap : string) (k : Cont) : option string :=
  match s with
  | EmptyString => k s cap
  | String c s' =>
      if cls c then
        match star cls s' cap k with
        | Some r => Some r
        | None => k s cap
        end
      else k s cap
  end.

Fixpoint run (r : regex) (s cap : string) (k : Cont) : option string :=
  match r with
  | Lit l =>
      if JS.startsWith s l then k (JS.drop (String.length l) s) cap else None
  | Plus cls =>
      match s with
      | EmptyString => None
      | String c s' => if cls c then star cls s' cap k else None
      end
  | Cat r1 r2 => run r1 s cap (fun s' cap' => run r2 s' cap' k)
  | Group r1 =>
      run r1 s cap
        (fun s' _ => k s' (substring 0 (String.length s - String.length s') s))
  end.

(** [s.match(r)] for a regular expression without the [g] flag: the
    leftmost position at which [r] matches; the result is the text of
    group 1 (the only part of the match array the source reads), [None]
    standing for [null].  The group of the expression used here is not
    optional, so it is set in every match. *)
Fixpoint exec (r : regex) (s : string) : option string :=
  match run r s "" (fun _ cap => Some cap) with
  | Some cap => Some cap
  | None =>
      match s with
      | EmptyString => None
      | String _ s' => exec r s'
      end
  end.

End RegExp.

(** ** Node's [path] module, POSIX flavour

    [path.normalize] and [path.join] belong to the runtime, not to the
    plugin.  They are modelled after Node's [lib/path.js]: the path is cut
    at the separators, empty and [.] segments are dropped, a [..] segment
    removes the segment before it, and survives only at the start of a
    relative path. *)

Module PosixPath.

Fixpoint splitFrom (cur s : string) : list string :=
  match s with
  | EmptyString => [cur]
  | String c s' =>
      if (c =? "/")%char then cur :: splitFrom "" s'
      else splitFrom (cur ++ String c "") s'
  end.

Definition split (s : string) : list string := splitFrom "" s.

(** One segment of [normalizeString]; the stack holds the segments kept
    so far, the last one first. *)
Definition step (allowAboveRoot : bool) (stack : list string) (seg : string)
  : list string :=
  if (seg =? "") || (seg =? ".") then stack
  else if seg =? ".." then
    match stack with
    | top :: rest =>
        if top =? ".." then (if allowAboveRoot then ".." :: stack else stack)
        else rest
    | [] => if allowAboveRoot then [".."] else []
    end
  else seg :: stack.

Definition normalizeString (path : string) (allowAboveRoot : bool) : string :=
  String.concat "/" (rev (fold_left (step allowAboveRoot) (split path) [])).

Fixpoint lastChar (s : string) : option ascii :=
  match s with
  | EmptyString => None
  | String c EmptyString => Some c
  | String _ s' => lastChar s'
  end.

Definition isSlash (o : option ascii) : bool :=
  match o with Some c => (c =? "/")%char | None => false end.

Definition normalize (path : string) : string :=
  match path with
  | EmptyString => "."
  | String c0 _ =>
      let isAbsolute := (c0 =? "/")%char in
      let trailingSeparator := isSlash (lastChar path) in
      let p := normalizeString path (negb isAbsolute) in
      if p =? "" then
        if isAbsolute then "/" else if trailingSeparator then "./" else "."
      else
        let p' := if trailingSeparator then p ++ "/" else p in
        if isAbsolute then "/" ++ p' else p'
  end.

(** [path.join(a, b)]: the non-empty arguments joined by a separator,
    then normalized. *)
Definition join (a b : string) : string :=
  match a, b with
  | EmptyString, EmptyString => "."
  | EmptyString, _ => normalize b
  | _, EmptyString => normalize a
  | _, _ => normalize (a ++ "/" ++ b)
  end.

End PosixPath.

(** ** Control effects: exceptions and promises *)

(** The completion of synchronous code: a value, or a thrown [Error] of
    which only [message] is ever read. *)
Inductive Completion (A : Type) : Type :=
| Normal (a : A)
| Throw (message : string).
Arguments Normal {A} a.
Arguments Throw {A} message.

(** The state a promise ends in. *)
Inductive Promise (A : Type) : Type :=
| Pending
| Fulfilled (a : A)
| Rejected (message : string).
Arguments Pending {A}.
Arguments Fulfilled {A} a.
Arguments Rejected {A} message.

(** [new Promise(resolve => ...)] whose executor does not throw: the
    promise takes the value of the first call of [resolve]; later calls
    have no effect. *)
Definition settle {A : Type} (resolveCalls : list A) : Promise A :=
  match resolveCalls with
  | [] => Pending
  | a :: _ => Fulfilled a
  end.

(** [try { return await p } catch (error) { return handler(error) }]
    inside an async function. *)
Definition awaitCatch {A : Type} (p : Promise A) (handler : string -> Promise A)
  : Promise A :=
  match p with
  | Rejected message => handler message
  | _ => p
  end.

(** ** [src/types.ts] *)

Module Settings.
Record LauncherSettings : Type := {
  terminalCommand : string;
  claudeCommand : string;
  additionalArgs : string
}.
End Settings.
Abbreviation LauncherSettings := Settings.LauncherSettings.

Module Context.
Record LaunchContext : Type := {
  workingDirectory : string;
  command : string;
  terminalCommand : string
}.
End Context.
Abbreviation LaunchContext := Context.LaunchContext.

Record LaunchResult : Type := {
  success : bool;
  error : option string
}.

Module ERROR_MESSAGES.
Definition COMMAND_NOT_FOUND : string :=
  "Claude Code not found. Ensure it is installed and in your PATH.".
Definition PERMISSION_DENIED : string :=
  "Permission denied. Check your terminal settings and system permissions.".
Definition INVALID_PATH : string :=
  "Invalid directory path. Cannot launch Claude Code.".
Definition PLATFORM_UNSUPPORTED : string :=
  "Your platform is not currently supported.".
Definition SPAWN_FAILED : string := "Failed to launch terminal: ".
Definition NOT_DESKTOP : string := "This feature is only available on desktop.".
End ERROR_MESSAGES.

(** ** The host: Node and Obsidian *)

(** [NodeJS.ErrnoException]: [code] may be undefined. *)
Record ErrnoException : Type := {
  code : option string;
  message : string
}.

Record SpawnOptions : Type := {
  detached : bool;
  stdio : string;
  windowsHide : bool;
  shell : bool
}.

(** What [child_process.spawn] does with a request.  Either it throws, or
    it returns a child process on which ['error'] events are emitted: the
    events [early] before the 100 ms timer of [spawnTerminal] fires, the
    events [late] after it.  Node reports a failure to start the process
    ([ENOENT], [EACCES], ...) on the next tick, so among [early]. *)
Inductive SpawnBehaviour : Type :=
| SpawnThrows (message : string)
| SpawnReturns (early late : list ErrnoException).

Record Host : Type := {
  platform : string;                                 (* process.platform *)
  normalize : string -> string;                      (* path.normalize *)
  join : string -> string -> string;                 (* path.join, two arguments *)
  spawn : string -> list string -> SpawnOptions -> SpawnBehaviour;
  isDirectory : string -> bool                       (* the host file system *)
}.

(** Obsidian's vault adapter: [FileSystemAdapter] on desktop, another
    [DataAdapter] elsewhere. *)
Inductive DataAdapter : Type :=
| FileSystemAdapter (basePath : string)
| OtherAdapter.

Record TFolder : Type := { path : string }.

Record TFile : Type := {
  name : string;
  parent : option TFolder
}.

Record App : Type := { vault_adapter : DataAdapter }.

Record Notice : Type := {
  notice_message : string;
  notice_duration : option N
}.

(** ** [src/utils/terminal.ts] *)

Definition buildLaunchContext (h : Host) (app : App) (file : TFile)
    (settings : LauncherSettings) : Completion LaunchContext :=
  match vault_adapter app with
  | OtherAdapter => Throw ERROR_MESSAGES.NOT_DESKTOP
  | FileSystemAdapter vaultPath =>
      match parent file with
      | None => Throw ERROR_MESSAGES.INVALID_PATH
      | Some folder =>
          let workingDirectory := join h vaultPath (path folder) in
          let command :=
            if JS.truthy (JS.trim (Settings.additionalArgs settings))
            then Settings.claudeCommand settings ++ " "
                 ++ Settings.additionalArgs settings
            else Settings.claudeCommand settings in
          Normal {| Context.workingDirectory := workingDirectory;
                    Context.command := command;
                    Context.terminalCommand := Settings.terminalCommand settings |}
      end
  end.

(** The listener of the child's ['error'] event. *)
Definition onSpawnError (error : ErrnoException) : LaunchResult :=
  let errorMessage :=
    match code error with
    | Some c =>
        if c =? "ENOENT" then ERROR_MESSAGES.COMMAND_NOT_FOUND
        else if c =? "EACCES" then ERROR_MESSAGES.PERMISSION_DENIED
        else ERROR_MESSAGES.SPAWN_FAILED ++ message error
    | None => ERROR_MESSAGES.SPAWN_FAILED ++ message error
    end in
  {| success := false; error := Some errorMessage |}.

Definition spawnTerminal (h : Host) (executable : string) (args : list string)
    (useShell : bool) : Promise LaunchResult :=
  settle
    match spawn h executable args
            {| detached := true; stdio := "ignore"; windowsHide := true;
               shell := useShell |} with
    | SpawnThrows m =>
        [ {| success := false; error := Some (ERROR_MESSAGES.SPAWN_FAILED ++ m) |} ]
    | SpawnReturns early late =>
        (map onSpawnError early
         ++ [ {| success := true; error := None |} ]
         ++ map onSpawnError late)%list
    end.

Definition validatePath (h : Host) (filePath : string) : bool :=
  let normalized := normalize h filePath in
  if JS.includes normalized ".." then false else true.

(** The two placeholder replacements of [launchTerminal]. *)
Definition substitutePlaceholders (context : LaunchContext) : string :=
  JS.replaceAll "{CMD}" (Context.command context)
    (JS.replaceAll "{DIR}" (Context.workingDirectory context)
       (Context.terminalCommand context)).







(** [/osascript\s+-e\s+'(.+)'/] *)
Definition scriptRegExp : RegExp.regex :=
  RegExp.Cat (RegExp.Lit "osascript")
   (RegExp.Cat (RegExp.Plus JS.isWhiteSpace)
    (RegExp.Cat (RegExp.Lit "-e")
     (RegExp.Cat (RegExp.Plus JS.isWhiteSpace)
      (RegExp.Cat (RegExp.Lit "'")
       (RegExp.Cat (RegExp.Group (RegExp.Plus JS.isDot))
                   (RegExp.Lit "'")))))).

(** The platform branches of [launchTerminal]: executable, arguments and
    the [useShell] flag handed to [spawnTerminal]. *)
Definition resolveCommand (platform : string) (terminalCommand : string)
  : string * list string * bool :=
  if platform =? "win32" then
    ("cmd", ["/c"; terminalCommand], false)
  else if (platform =? "darwin") && JS.includes terminalCommand "osascript" then
    match RegExp.exec scriptRegExp terminalCommand with
    | Some script => ("osascript", ["-e"; script], false)
    | None =>
        ("osascript",
         ["-e"; JS.replaceFirst "osascript -e " "" terminalCommand], false)
    end
  else
    ("/bin/sh", ["-c"; terminalCommand], false).

(** [launchTerminal].  Inside its [try] block only the awaited promise of
    [spawnTerminal] can fail: the statements before it work on strings and
    do not throw. *)
Definition launchTerminal (h : Host) (context : LaunchContext)
  : Promise LaunchResult :=
  if negb (validatePath h (Context.workingDirectory context)) then
    Fulfilled {| success := false; error := Some ERROR_MESSAGES.INVALID_PATH |}
  else
    let terminalCommand := substitutePlaceholders context in
    let '(executable, args, useShell) :=
      resolveCommand (platform h) terminalCommand in
    awaitCatch (spawnTerminal h executable args useShell)
      (fun m =>
         Fulfilled {| success := false;
                      error := Some (ERROR_MESSAGES.SPAWN_FAILED ++ m) |}).

(** ** [src/settings.ts] *)

(** The double quote, which the templates embed. *)
Definition dq : string := String (ascii_of_nat 34) "".

Definition getDefaultSettings (platform : string) : LauncherSettings :=
  let terminalCommand :=
    if platform =? "darwin" then
      "osascript -e 'tell application " ++ dq ++ "Terminal" ++ dq
      ++ " to do script " ++ dq ++ "cd {DIR} && {CMD}" ++ dq ++ "'"
    else if platform =? "win32" then
      "start cmd /K " ++ dq ++ "cd /D {DIR} && {CMD}" ++ dq
    else if platform =? "linux" then
      "gnome-terminal --working-directory=" ++ dq ++ "{DIR}" ++ dq
      ++ " -- bash -c " ++ dq ++ "{CMD}; exec bash" ++ dq
    else
      (* Fallback to Linux default for unknown platforms *)
      "gnome-terminal --working-directory=" ++ dq ++ "{DIR}" ++ dq
      ++ " -- bash -c " ++ dq ++ "{CMD}; exec bash" ++ dq in
  {| Settings.terminalCommand := terminalCommand;
     Settings.claudeCommand := "claude-code";
     Settings.additionalArgs := "" |}.

(** The handler of the terminal-command text field of the settings tab.
    The plugin keeps the settings in memory and in [data.json]; a notice
    is the only way the handler reports on a value. *)
Record PluginState : Type := {
  settings : LauncherSettings;
  data : LauncherSettings;
  notices : list Notice
}.

(** The notice of the handler. *)
Definition missingPlaceholderNotice : Notice :=
  {| notice_message := "Terminal command must contain {DIR} and {CMD} placeholders";
     notice_duration := Some 5000%N |}.

Definition terminalCommandOnChange (value : string) (st : PluginState)
  : PluginState :=
  let notices' :=
    if JS.truthy value
       && (negb (JS.includes value "{DIR}") || negb (JS.includes value "{CMD}"))
    then (notices st ++ [missingPlaceholderNotice])%list
    else notices st in
  let settings' :=
    {| Settings.terminalCommand := value;
       Settings.claudeCommand := Settings.claudeCommand (settings st);
       Settings.additionalArgs := Settings.additionalArgs (settings st) |} in
  {| settings := settings'; data := settings'; notices := notices' |}.

(** ** [src/commands/launch-claude.ts] *)

(** [launchClaudeCode]; the promise carries the notices shown.  The test
    [file instanceof TFile] is decided by the type of [file]. *)
Definition launchClaudeCode (h : Host) (app : App) (file : TFile)
    (settings : LauncherSettings) : Promise (list Notice) :=
  let caught (m : string) : Promise (list Notice) :=
    Fulfilled [ {| notice_message := "Error: " ++ m;
                   notice_duration := Some 8000%N |} ] in
  match parent file with
  | None =>
      Fulfilled [ {| notice_message := "File has no parent directory";
                     notice_duration := None |} ]
  | Some _ =>
      match vault_adapter app with
      | OtherAdapter =>
          Fulfilled [ {| notice_message := "This feature is only available on desktop";
                         notice_duration := None |} ]
      | FileSystemAdapter _ =>
          match buildLaunchContext h app file settings with
          | Throw m => caught m
          | Normal context =>
              match launchTerminal h context with
              | Pending => Pending
              | Rejected m => caught m
              | Fulfilled result =>
                  if success result then
                    Fulfilled [ {| notice_message := "Claude Code launched successfully";
                                   notice_duration := Some 3000%N |} ]
                  else
                    let text :=
                      match error result with
                      | Some e => if JS.truthy e then e
                                  else "Failed to launch Claude Code"
                      | None => "Failed to launch Claude Code"
                      end in
                    Fulfilled [ {| notice_message := text;
                                   notice_duration := Some 8000%N |} ]
              end
          end
      end
  end.

(** ** [src/main.ts] and the settings tab, with the settings object shared

    The plugin keeps its settings in one object.  [onload] hands that
    object to [registerLaunchCommand], whose menu handlers keep the
    reference; the handlers of the settings tab write into the object that
    [this.settings] names at the time of the event.  Objects are modelled
    by references into a heap. *)

(** What [loadData] returns: [null] when there is no [data.json], else an
    object that may lack fields. *)
Record StoredData : Type := {
  stored_terminalCommand : option string;
  stored_claudeCommand : option string;
  stored_additionalArgs : option string
}.

(** [Object.assign({}, defaults, loaded)]. *)
Definition assignSettings (defaults : LauncherSettings)
    (loaded : option StoredData) : LauncherSettings :=
  match loaded with
  | None => defaults
  | Some d =>
      {| Settings.terminalCommand :=
           match stored_terminalCommand d with
           | Some v => v
           | None => Settings.terminalCommand defaults
           end;
         Settings.claudeCommand :=
           match stored_claudeCommand d with
           | Some v => v
           | None => Settings.claudeCommand defaults
           end;
         Settings.additionalArgs :=
           match stored_additionalArgs d with
           | Some v => v
           | None => Settings.additionalArgs defaults
           end |}
  end.

(** [saveData(settings)]: the three fields are written. *)
Definition storeSettings (s : LauncherSettings) : StoredData :=
  {| stored_terminalCommand := Some (Settings.terminalCommand s);
     stored_claudeCommand := Some (Settings.claudeCommand s);
     stored_additionalArgs := Some (Settings.additionalArgs s) |}.

Definition Ref : Type := nat.

Definition Heap : Type := Ref -> LauncherSettings.

Definition write (heap : Heap) (r : Ref) (s : LauncherSettings) : Heap :=
  fun r' => if (r' =? r)%nat then s else heap r'.

Record Plugin : Type := {
  heap : Heap;                      (* the settings objects *)
  nextRef : Ref;                    (* the next object to be allocated *)
  plugin_settings : Ref;            (* this.settings *)
  command_settings : Ref;           (* [settings] in registerLaunchCommand *)
  dataJson : option StoredData;     (* data.json *)
  plugin_notices : list Notice
}.

(** [saveSettings]. *)
Definition saveSettings (p : Plugin) : Plugin :=
  {| heap := heap p;
     nextRef := nextRef p;
     plugin_settings := plugin_settings p;
     command_settings := command_settings p;
     dataJson := Some (storeSettings (heap p (plugin_settings p)));
     plugin_notices := plugin_notices p |}.

(** [onload]: [loadSettings] makes the settings object, and
    [registerLaunchCommand(this, this.settings)] keeps a reference to
    it. *)
Definition onload (platform : string) (loaded : option StoredData) : Plugin :=
  let s := assignSettings (getDefaultSettings platform) loaded in
  {| heap := fun _ => s;
     nextRef := 1;
     plugin_settings := 0;
     command_settings := 0;
     dataJson := loaded;
     plugin_notices := [] |}.

(** What the user does in the settings tab. *)
Inductive SettingsEvent : Type :=
| ChangeTerminalCommand (value : string)
| ChangeClaudeCommand (value : string)
| ChangeAdditionalArgs (value : string)
| ResetToDefaults.

(** The handlers of [LauncherSettingTab.display], one event after the
    other. *)
Definition handle (platform : string) (event : SettingsEvent) (p : Plugin)
  : Plugin :=
  let current := heap p (plugin_settings p) in
  match event with
  | ChangeTerminalCommand value =>
      let shown :=
        if JS.truthy value
           && (negb (JS.includes value "{DIR}") || negb (JS.includes value "{CMD}"))
        then (plugin_notices p ++ [missingPlaceholderNotice])%list
        else plugin_notices p in
      saveSettings
        {| heap := write (heap p) (plugin_settings p)
                     {| Settings.terminalCommand := value;
                        Settings.claudeCommand := Settings.claudeCommand current;
                        Settings.additionalArgs := Settings.additionalArgs current |};
           nextRef := nextRef p;
           plugin_settings := plugin_settings p;
           command_settings := command_settings p;
           dataJson := dataJson p;
           plugin_notices := shown |}
  | ChangeClaudeCommand value =>
      saveSettings
        {| heap := write (heap p) (plugin_settings p)
                     {| Settings.terminalCommand := Settings.terminalCommand current;
                        Settings.claudeCommand := value;
                        Settings.additionalArgs := Settings.additionalArgs current |};
           nextRef := nextRef p;
           plugin_settings := plugin_settings p;
           command_settings := command_settings p;
           dataJson := dataJson p;
           plugin_notices := plugin_notices p |}
  | ChangeAdditionalArgs value =>
      saveSettings
        {| heap := write (heap p) (plugin_settings p)
                     {| Settings.terminalCommand := Settings.terminalCommand current;
                        Settings.claudeCommand := Settings.claudeCommand current;
                        Settings.additionalArgs := value |};
           nextRef := nextRef p;
           plugin_settings := plugin_settings p;
           command_settings := command_settings p;
           dataJson := dataJson p;
           plugin_notices := plugin_notices p |}
  | ResetToDefaults =>
      saveSettings
        {| heap := write (heap p) (nextRef p) (getDefaultSettings platform);
           nextRef := S (nextRef p);
           plugin_settings := nextRef p;
           command_settings := command_settings p;
           dataJson := dataJson p;
           plugin_notices :=
             (plugin_notices p
              ++ [ {| notice_message := "Settings reset to defaults";
                      notice_duration := None |} ])%list |}
  end.

Definition handleAll (platform : string) (events : list SettingsEvent)
    (p : Plugin) : Plugin :=
  fold_left (fun q event => handle platform event q) events p.

(** The settings the settings tab shows and writes. *)
Definition pluginView (p : Plugin) : LauncherSettings :=
  heap p (plugin_settings p).

(** The settings the menu handlers launch with. *)
Definition commandView (p : Plugin) : LauncherSettings :=
  heap p (command_settings p).

Definition isReset (event : SettingsEvent) : bool :=
  match event with ResetToDefaults => true | _ => false end.

(** The files of the vault as the menus see them. *)
Inductive TAbstractFile : Type :=
| AbstractFile (file : TFile)
| AbstractFolder (folder : TFolder).

(** [c.toLowerCase()] for a code unit below 256: the letters A to Z and
    the capital letters of Latin-1 (192 to 222, the multiplication sign
    215 apart) move up by 32. *)
Definition toLowerChar (c : ascii) : ascii :=
  let n := nat_of_ascii c in
  if ((65 <=? n) && (n <=? 90)
      || (192 <=? n) && (n <=? 222) && negb (n =? 215))%nat
  then ascii_of_nat (n + 32)
  else c.

Fixpoint toLowerCase (s : string) : string :=
  match s with
  | EmptyString => EmptyString
  | String c s' => String (toLowerChar c) (toLowerCase s')
  end.

(** The handler of [file-menu]: the file the item launches for, [None]
    when no item is added. *)
Definition fileMenuItem (file : TAbstractFile) : option TFile :=
  match file with
  | AbstractFolder _ => None
  | AbstractFile f =>
      if toLowerCase (name f) =? "claude.md" then Some f else None
  end.

(** The handler of [editor-menu], [viewFile] being [view.file]. *)
Definition editorMenuItem (viewFile : option TFile) : option TFile :=
  match viewFile with
  | None => None
  | Some f => if toLowerCase (name f) =? "claude.md" then Some f else None
  end.

(** The click on the menu item. *)
Definition menuItemOnClick (h : Host) (app : App) (file : TFile) (p : Plugin)
  : Promise (list Notice) :=
  launchClaudeCode h app file (commandView p).

(** Equality of two names up to the case of the letters A to Z. *)
Definition sameAsciiLetter (c d : ascii) : bool :=
  (c =? d)%char
  || (let n := nat_of_ascii c in
      let m := nat_of_ascii d in
      (65 <=? n) && (n <=? 90) && (m =? n + 32)
      || (65 <=? m) && (m <=? 90) && (n =? m + 32))%nat.

Fixpoint equalIgnoringAsciiCase (s t : string) : bool :=
  match s, t with
  | EmptyString, EmptyString => true
  | String c s', String d t' => sameAsciiLetter c d && equalIgnoringAsciiCase s' t'
  | _, _ => false
  end.

(** ** Concrete hosts *)

(** A POSIX host (macOS, Linux): Node's POSIX [path], a given behaviour of
    [spawn] and a given file system. *)
Definition posixHost (platform : string)
    (spawn : string -> list string -> SpawnOptions -> SpawnBehaviour)
    (isDirectory : string -> bool) : Host :=
  {| platform := platform;
     normalize := PosixPath.normalize;
     join := PosixPath.join;
     spawn := spawn;
     isDirectory := isDirectory |}.

(** A [spawn] that starts every process and reports no error. *)
Definition spawnOk : string -> list string -> SpawnOptions -> SpawnBehaviour :=
  fun _ _ _ => SpawnReturns [] [].

(** A [spawn] that reports one error on the child, at once. *)
Definition spawnError (e : ErrnoException)
  : string -> list string -> SpawnOptions -> SpawnBehaviour :=
  fun _ _ _ => SpawnReturns [e] [].

(** A file system without any directory. *)
Definition noDirectory : string -> bool := fun _ => false.

(** * Properties *)

(** ** The primitives on concrete inputs *)

Example includes_ex1 : JS.includes "/tmp/foo..bar" ".." = true.
Proof. reflexivity. Qed.

Example replaceAll_ex1 :
  JS.replaceAll "{DIR}" "/v" "cd {DIR} && ls {DIR}{DIR" = "cd /v && ls /v{DIR".
Proof. reflexivity. Qed.

Example replaceAll_ex2 :
  JS.replaceAll "{CMD}" "a$&b$$c$1" "x {CMD} y" = "x a{CMD}b$c$1 y".
Proof. reflexivity. Qed.

Example replaceFirst_ex1 :
  JS.replaceFirst "osascript -e " "" "osascript -e osascript -e x" = "osascript -e x".
Proof. reflexivity. Qed.

Example trim_ex1 : JS.trim "  a b  " = "a b".
Proof. reflexivity. Qed.

Example normalize_ex1 : PosixPath.normalize "/tmp/../etc" = "/etc".
Proof. reflexivity. Qed.

Example normalize_ex2 : PosixPath.normalize "../a/./b//c/" = "../a/b/c/".
Proof. reflexivity. Qed.

Example normalize_ex3 : PosixPath.normalize "/../x/..." = "/x/...".
Proof. reflexivity. Qed.

Example normalize_ex4 : PosixPath.normalize "a/../../b" = "../b".
Proof. reflexivity. Qed.

Example join_ex1 : PosixPath.join "/home/me/vault" "projects/app" = "/home/me/vault/projects/app".
Proof. reflexivity. Qed.

Example join_ex2 : PosixPath.join "/home/me/vault" "/" = "/home/me/vault/".
Proof. reflexivity. Qed.

Example exec_ex1 :
  RegExp.exec scriptRegExp "sudo osascript  -e  'say 1' -e 'say 2' &" = Some "say 1' -e 'say 2".
Proof. reflexivity. Qed.

Example exec_ex2 : RegExp.exec scriptRegExp "osascript -e ''" = None.
Proof. reflexivity. Qed.

Example resolveCommand_ex1 :
  resolveCommand "darwin"
    (substitutePlaceholders
       {| Context.workingDirectory := "/Users/me/vault";
          Context.command := "claude-code";
          Context.terminalCommand :=
            Settings.terminalCommand (getDefaultSettings "darwin") |})
  = ("osascript",
     ["-e"; "tell application " ++ dq ++ "Terminal" ++ dq ++ " to do script "
            ++ dq ++ "cd /Users/me/vault && claude-code" ++ dq],
     false).
Proof. reflexivity. Qed.

Example resolveCommand_ex2 :
  resolveCommand "darwin" ("osascript -e 'a" ++ JS.LF ++ "b'")
  = ("osascript", ["-e"; "'a" ++ JS.LF ++ "b'"], false).
Proof. reflexivity. Qed.

Example resolveCommand_ex3 :
  resolveCommand "win32" "start cmd /K osascript"
  = ("cmd", ["/c"; "start cmd /K osascript"], false).
Proof. reflexivity. Qed.

Example buildLaunchContext_ex1 :
  buildLaunchContext (posixHost "linux" spawnOk noDirectory)
    {| vault_adapter := FileSystemAdapter "/home/me/vault" |}
    {| name := "CLAUDE.md"; parent := Some {| path := "projects/app" |} |}
    {| Settings.terminalCommand := "xterm -e {CMD}";
       Settings.claudeCommand := "claude-code";
       Settings.additionalArgs := "--verbose" |}
  = Normal {| Context.workingDirectory := "/home/me/vault/projects/app";
              Context.command := "claude-code --verbose";
              Context.terminalCommand := "xterm -e {CMD}" |}.
Proof. reflexivity. Qed.

(** ** Promises of the launch path *)

(** [spawnTerminal] calls [resolve] at least once on every path, so its
    promise is fulfilled: never pending, never rejected. *)
Lemma spawnTerminal_fulfilled (h : Host) (executable : string)
    (args : list string) (useShell : bool) :
  exists r, spawnTerminal h executable args useShell = Fulfilled r.
Proof.
  unfold spawnTerminal.
  destruct (spawn h executable args _) as [m | early late].
  - eexists; reflexivity.
  - destruct early as [| e early]; simpl; eexists; reflexivity.
Qed.

Lemma awaitCatch_fulfilled {A : Type} (p : Promise A) (handler : string -> Promise A) :
  (exists a, p = Fulfilled a) -> awaitCatch p handler = p.
Proof. intros [a ->]. reflexivity. Qed.

(** [launchTerminal] is the path check followed by [spawnTerminal] on the
    resolved command; its [catch] clause never runs. *)
Lemma launchTerminal_unfold (h : Host) (context : LaunchContext) :
  launchTerminal h context =
  if validatePath h (Context.workingDirectory context) then
    let '(executable, args, useShell) :=
      resolveCommand (platform h) (substitutePlaceholders context) in
    spawnTerminal h executable args useShell
  else
    Fulfilled {| success := false; error := Some ERROR_MESSAGES.INVALID_PATH |}.
Proof.
  unfold launchTerminal.
  destruct (validatePath h (Context.workingDirectory context)); simpl; [| reflexivity].
  destruct (resolveCommand (platform h) (substitutePlaceholders context))
    as [[executable args] useShell].
  apply awaitCatch_fulfilled, spawnTerminal_fulfilled.
Qed.

(** ** Default templates *)

(** C8: on every platform other than macOS and Windows, in particular on
    an unrecognized one, the default template is the Linux default,
    character for character; [getDefaultSettings] is a total function, so
    an unknown platform is no error and every call gives the same
    template. *)
Theorem getDefaultSettings_unknown_is_linux (platform : string) :
  platform <> "darwin" -> platform <> "win32" ->
  Settings.terminalCommand (getDefaultSettings platform)
  = Settings.terminalCommand (getDefaultSettings "linux").
Proof.
  intros Hd Hw. unfold getDefaultSettings.
  apply String.eqb_neq in Hd, Hw. rewrite Hd, Hw.
  destruct (platform =? "linux"); reflexivity.
Qed.

Lemma getDefaultSettings_unknown_is_linux_witness :
  Settings.terminalCommand (getDefaultSettings "freebsd")
  = Settings.terminalCommand (getDefaultSettings "linux").
Proof.
  apply (getDefaultSettings_unknown_is_linux "freebsd"); discriminate.
Defined.

(** ** Resolution of the command *)

(** C9: on macOS a substituted template without the substring
    [osascript] takes the branch of Linux: [/bin/sh] with the arguments
    [-c] and the whole substituted string, which is what [launchTerminal]
    hands to [spawnTerminal]. *)
Theorem launchTerminal_darwin_without_osascript (h : Host) (context : LaunchContext) :
  platform h = "darwin" ->
  validatePath h (Context.workingDirectory context) = true ->
  JS.includes (substitutePlaceholders context) "osascript" = false ->
  resolveCommand "darwin" (substitutePlaceholders context)
  = ("/bin/sh", ["-c"; substitutePlaceholders context], false)
  /\ launchTerminal h context
     = spawnTerminal h "/bin/sh" ["-c"; substitutePlaceholders context] false.
Proof.
  intros Hp Hv Hi.
  assert (Hr : resolveCommand "darwin" (substitutePlaceholders context)
               = ("/bin/sh", ["-c"; substitutePlaceholders context], false)).
  { unfold resolveCommand. rewrite Hi. reflexivity. }
  split; [exact Hr |].
  rewrite launchTerminal_unfold, Hv, Hp, Hr. reflexivity.
Qed.

Lemma launchTerminal_darwin_without_osascript_witness :
  launchTerminal (posixHost "darwin" spawnOk noDirectory)
    {| Context.workingDirectory := "/Users/me/vault";
       Context.command := "claude-code";
       Context.terminalCommand := "open -a iTerm {DIR}; {CMD}" |}
  = spawnTerminal (posixHost "darwin" spawnOk noDirectory) "/bin/sh"
      ["-c"; "open -a iTerm /Users/me/vault; claude-code"] false.
Proof.
  apply (launchTerminal_darwin_without_osascript
           (posixHost "darwin" spawnOk noDirectory)
           {| Context.workingDirectory := "/Users/me/vault";
              Context.command := "claude-code";
              Context.terminalCommand := "open -a iTerm {DIR}; {CMD}" |});
    reflexivity.
Defined.

(** ** Path validation *)

(** C10: a working directory whose normalized form contains two
    consecutive dots anywhere is refused by [validatePath], and the launch
    fails with the invalid-path error; the template plays no part. *)
Theorem launchTerminal_rejects_double_dot (h : Host) (context : LaunchContext) :
  JS.includes (normalize h (Context.workingDirectory context)) ".." = true ->
  validatePath h (Context.workingDirectory context) = false
  /\ launchTerminal h context
     = Fulfilled {| success := false; error := Some ERROR_MESSAGES.INVALID_PATH |}.
Proof.
  intros Hi.
  assert (Hv : validatePath h (Context.workingDirectory context) = false).
  { unfold validatePath. rewrite Hi. reflexivity. }
  split; [exact Hv |].
  unfold launchTerminal. rewrite Hv. reflexivity.
Qed.

(** [/tmp/foo..bar] has no parent-traversal segment and is refused. *)
Lemma launchTerminal_rejects_double_dot_witness :
  PosixPath.split "/tmp/foo..bar" = [""; "tmp"; "foo..bar"]
  /\ validatePath (posixHost "linux" spawnOk noDirectory) "/tmp/foo..bar" = false
  /\ launchTerminal (posixHost "linux" spawnOk noDirectory)
       {| Context.workingDirectory := "/tmp/foo..bar";
          Context.command := "claude-code";
          Context.terminalCommand := "xterm -e {DIR} {CMD}" |}
     = Fulfilled {| success := false; error := Some ERROR_MESSAGES.INVALID_PATH |}.
Proof.
  split; [reflexivity |].
  apply (launchTerminal_rejects_double_dot
           (posixHost "linux" spawnOk noDirectory)
           {| Context.workingDirectory := "/tmp/foo..bar";
              Context.command := "claude-code";
              Context.terminalCommand := "xterm -e {DIR} {CMD}" |}).
  reflexivity.
Defined.

(** On a POSIX host [/tmp/../etc] normalizes to [/etc], which holds no
    dots, so [validatePath] accepts it. *)
Lemma validatePath_posix_resolved_traversal
    (platform : string)
    (spawn : string -> list string -> SpawnOptions -> SpawnBehaviour)
    (isDirectory : string -> bool) :
  validatePath (posixHost platform spawn isDirectory) "/tmp/../etc" = true.
Proof. reflexivity. Qed.

(** C1: the code at the input [/tmp/../etc].  The path is normalized
    before it is searched for dots, the normal form is [/etc], and the
    launch is not refused: whatever the template and the command, its
    result is the one of [spawnTerminal] on the resolved command, a
    success when [spawn] reports no error. *)
Theorem launchTerminal_accepts_resolved_traversal
    (platform template command : string)
    (spawn : string -> list string -> SpawnOptions -> SpawnBehaviour)
    (isDirectory : string -> bool) :
  let h := posixHost platform spawn isDirectory in
  let context :=
    {| Context.workingDirectory := "/tmp/../etc";
       Context.command := command;
       Context.terminalCommand := template |} in
  PosixPath.normalize "/tmp/../etc" = "/etc"
  /\ validatePath h "/tmp/../etc" = true
  /\ launchTerminal h context
     = (let '(executable, args, useShell) :=
          resolveCommand platform (substitutePlaceholders context) in
        spawnTerminal h executable args useShell)
  /\ launchTerminal (posixHost platform spawnOk isDirectory) context
     = Fulfilled {| success := true; error := None |}.
Proof.
  cbv zeta. split; [reflexivity |]. split; [reflexivity |]. split.
  - rewrite launchTerminal_unfold. reflexivity.
  - rewrite launchTerminal_unfold.
    cbn [Context.workingDirectory].
    rewrite validatePath_posix_resolved_traversal.
    destruct (resolveCommand _ _) as [[executable args] useShell].
    reflexivity.
Qed.

(** C2, as the specification states it, fails: a directory that does not
    exist is launched in.  No function of the module reads the file
    system. *)
Lemma launchTerminal_missing_directory_counterexample :
  ~ (forall (h : Host) (context : LaunchContext),
        isDirectory h (Context.workingDirectory context) = false ->
        launchTerminal h context
        = Fulfilled {| success := false;
                       error := Some ERROR_MESSAGES.INVALID_PATH |}).
Proof.
  intros H.
  specialize (H (posixHost "linux" spawnOk noDirectory)
                {| Context.workingDirectory := "/no/such/dir";
                   Context.command := "claude-code";
                   Context.terminalCommand := "xterm -e {DIR} {CMD}" |}
                eq_refl).
  vm_compute in H. discriminate H.
Qed.

(** C2, amended: a working directory that is not an existing directory is
    refused only when its normalized form contains two consecutive dots;
    otherwise the launch goes on to substitution and spawn, and its result
    is the one of [spawnTerminal]. *)
Theorem launchTerminal_no_existence_check (h : Host) (context : LaunchContext) :
  isDirectory h (Context.workingDirectory context) = false ->
  launchTerminal h context =
  if JS.includes (normalize h (Context.workingDirectory context)) ".." then
    Fulfilled {| success := false; error := Some ERROR_MESSAGES.INVALID_PATH |}
  else
    let '(executable, args, useShell) :=
      resolveCommand (platform h) (substitutePlaceholders context) in
    spawnTerminal h executable args useShell.
Proof.
  intros _. rewrite launchTerminal_unfold. unfold validatePath.
  destruct (JS.includes _ ".."); reflexivity.
Qed.

Lemma launchTerminal_no_existence_check_witness :
  isDirectory (posixHost "linux" spawnOk noDirectory) "/no/such/dir" = false
  /\ launchTerminal (posixHost "linux" spawnOk noDirectory)
       {| Context.workingDirectory := "/no/such/dir";
          Context.command := "claude-code";
          Context.terminalCommand := "xterm -e {DIR} {CMD}" |}
     = Fulfilled {| success := true; error := None |}.
Proof.
  split; [reflexivity |].
  rewrite (launchTerminal_no_existence_check
             (posixHost "linux" spawnOk noDirectory)
             {| Context.workingDirectory := "/no/such/dir";
                Context.command := "claude-code";
                Context.terminalCommand := "xterm -e {DIR} {CMD}" |} eq_refl).
  reflexivity.
Defined.

(** ** Classification of spawn errors *)

(** C4: when the child reports an error before the timer fires,
    [spawnTerminal] is fulfilled with [success = false] and a message
    chosen by the code of the error: the command-not-found message for
    [ENOENT], the permission message for [EACCES], and for every other
    code, or none, the spawn-failed prefix followed by the message of the
    error itself. *)
Theorem spawnTerminal_classifies_error (h : Host) (executable : string)
    (args : list string) (useShell : bool)
    (e : ErrnoException) (early late : list ErrnoException) :
  spawn h executable args
    {| detached := true; stdio := "ignore"; windowsHide := true;
       shell := useShell |} = SpawnReturns (e :: early) late ->
  exists r,
    spawnTerminal h executable args useShell = Fulfilled r
    /\ success r = false
    /\ (code e = Some "ENOENT" ->
        error r = Some ERROR_MESSAGES.COMMAND_NOT_FOUND)
    /\ (code e = Some "EACCES" ->
        error r = Some ERROR_MESSAGES.PERMISSION_DENIED)
    /\ (code e <> Some "ENOENT" -> code e <> Some "EACCES" ->
        error r = Some (ERROR_MESSAGES.SPAWN_FAILED ++ message e)).
Proof.
  intros Hs. exists (onSpawnError e).
  unfold spawnTerminal. rewrite Hs. cbn [map app settle].
  split; [reflexivity |]. split; [reflexivity |].
  unfold onSpawnError; cbn [error].
  repeat split.
  - intros ->. reflexivity.
  - intros ->. reflexivity.
  - intros Hn Ha. destruct (code e) as [c |]; [| reflexivity].
    destruct (String.eqb_spec c "ENOENT") as [-> | _]; [congruence |].
    destruct (String.eqb_spec c "EACCES") as [-> | _]; [congruence |].
    reflexivity.
Qed.

Lemma spawnTerminal_classifies_error_witness :
  exists r,
    spawnTerminal
      (posixHost "linux"
         (spawnError {| code := Some "EMFILE"; message := "spawn /bin/sh EMFILE" |})
         noDirectory)
      "/bin/sh" ["-c"; "xterm"] false = Fulfilled r
    /\ success r = false
    /\ error r = Some "Failed to launch terminal: spawn /bin/sh EMFILE".
Proof.
  destruct (spawnTerminal_classifies_error
              (posixHost "linux"
                 (spawnError {| code := Some "EMFILE";
                                message := "spawn /bin/sh EMFILE" |})
                 noDirectory)
              "/bin/sh" ["-c"; "xterm"] false
              {| code := Some "EMFILE"; message := "spawn /bin/sh EMFILE" |}
              [] [] eq_refl)
    as [r [Hr [Hs [_ [_ Ho]]]]].
  exists r. split; [exact Hr |]. split; [exact Hs |].
  apply Ho; discriminate.
Defined.

(** A synchronous failure of [spawn] is reported as a spawn failure that
    carries the message of the exception. *)
Lemma spawnTerminal_spawn_throws (h : Host) (executable : string)
    (args : list string) (useShell : bool) (m : string) :
  spawn h executable args
    {| detached := true; stdio := "ignore"; windowsHide := true;
       shell := useShell |} = SpawnThrows m ->
  spawnTerminal h executable args useShell
  = Fulfilled {| success := false;
                 error := Some (ERROR_MESSAGES.SPAWN_FAILED ++ m) |}.
Proof. intros Hs. unfold spawnTerminal. rewrite Hs. reflexivity. Qed.

(** ** Failures as values *)

Lemma launchTerminal_fulfilled (h : Host) (context : LaunchContext) :
  exists r, launchTerminal h context = Fulfilled r.
Proof.
  rewrite launchTerminal_unfold.
  destruct (validatePath h (Context.workingDirectory context)).
  - destruct (resolveCommand _ _) as [[executable args] useShell].
    apply spawnTerminal_fulfilled.
  - eexists; reflexivity.
Qed.

(** C5, as the specification states it, fails for context building:
    [buildLaunchContext] throws when the vault is not on a desktop file
    system. *)
Lemma buildLaunchContext_throws_counterexample :
  ~ (forall (h : Host) (app : App) (file : TFile) (settings : LauncherSettings),
        exists context, buildLaunchContext h app file settings = Normal context).
Proof.
  intros H.
  destruct (H (posixHost "linux" spawnOk noDirectory)
              {| vault_adapter := OtherAdapter |}
              {| name := "CLAUDE.md"; parent := Some {| path := "notes" |} |}
              (getDefaultSettings "linux")) as [context Hc].
  discriminate Hc.
Qed.

(** A result of [spawnTerminal] is a success, or a failure that carries a
    message. *)
Lemma spawnTerminal_value (h : Host) (executable : string)
    (args : list string) (useShell : bool) :
  exists r, spawnTerminal h executable args useShell = Fulfilled r
            /\ (success r = true
                \/ (success r = false /\ exists m, error r = Some m)).
Proof.
  unfold spawnTerminal.
  destruct (spawn h executable args _) as [m | early late].
  - eexists. split; [reflexivity |]. right. split; [reflexivity |].
    eexists; reflexivity.
  - destruct early as [| e early]; cbn [map app settle].
    + eexists. split; [reflexivity |]. left; reflexivity.
    + eexists. split; [reflexivity |]. right. split; [reflexivity |].
      eexists; reflexivity.
Qed.

(** C5, amended: [spawnTerminal] and [launchTerminal] never throw and
    never reject: each ends fulfilled, with a success or with a failure
    that carries a message.  [buildLaunchContext] throws an [Error]: with
    the not-desktop message when the adapter is not a
    [FileSystemAdapter], with the invalid-path message when it is one and
    the file has no parent; otherwise it returns the context.  Its caller
    [launchClaudeCode] tests both conditions before it calls
    [buildLaunchContext], and ends fulfilled after one notice: that the
    file has no parent directory, that the feature is only available on
    desktop, or the notice of the launch result. *)
Theorem launch_failures_are_values (h : Host) (app : App) (file : TFile)
    (settings : LauncherSettings) (context : LaunchContext)
    (executable : string) (args : list string) (useShell : bool) :
  (exists r, spawnTerminal h executable args useShell = Fulfilled r
             /\ (success r = true
                 \/ (success r = false /\ exists m, error r = Some m)))
  /\ (exists r, launchTerminal h context = Fulfilled r
                /\ (success r = true
                    \/ (success r = false /\ exists m, error r = Some m)))
  /\ (vault_adapter app = OtherAdapter ->
      buildLaunchContext h app file settings = Throw ERROR_MESSAGES.NOT_DESKTOP)
  /\ (vault_adapter app <> OtherAdapter -> parent file = None ->
      buildLaunchContext h app file settings = Throw ERROR_MESSAGES.INVALID_PATH)
  /\ (vault_adapter app <> OtherAdapter -> parent file <> None ->
      exists built, buildLaunchContext h app file settings = Normal built)
  /\ (parent file = None ->
      launchClaudeCode h app file settings
      = Fulfilled [ {| notice_message := "File has no parent directory";
                       notice_duration := None |} ])
  /\ (parent file <> None -> vault_adapter app = OtherAdapter ->
      launchClaudeCode h app file settings
      = Fulfilled [ {| notice_message := "This feature is only available on desktop";
                       notice_duration := None |} ])
  /\ (parent file <> None -> vault_adapter app <> OtherAdapter ->
      exists built r,
        buildLaunchContext h app file settings = Normal built
        /\ launchTerminal h built = Fulfilled r
        /\ launchClaudeCode h app file settings
           = Fulfilled
               [ if success r then
                   {| notice_message := "Claude Code launched successfully";
                      notice_duration := Some 3000%N |}
                 else
                   {| notice_message :=
                        match error r with
                        | Some e => if JS.truthy e then e
                                    else "Failed to launch Claude Code"
                        | None => "Failed to launch Claude Code"
                        end;
                      notice_duration := Some 8000%N |} ]).
Proof.
  assert (Hlaunch : forall c,
            exists r, launchTerminal h c = Fulfilled r
                      /\ (success r = true
                          \/ (success r = false /\ exists m, error r = Some m))).
  { intros c. rewrite launchTerminal_unfold.
    destruct (validatePath h (Context.workingDirectory c)).
    - destruct (resolveCommand _ _) as [[e a] u]. apply spawnTerminal_value.
    - eexists. split; [reflexivity |]. right. split; [reflexivity |].
      eexists; reflexivity. }
  split; [apply spawnTerminal_value |].
  split; [apply Hlaunch |].
  unfold launchClaudeCode, buildLaunchContext.
  destruct (vault_adapter app) as [vaultPath |]; destruct (parent file) as [folder |].
  - split; [discriminate |]. split; [congruence |].
    split; [intros _ _; eexists; reflexivity |].
    split; [discriminate |]. split; [discriminate |].
    intros _ _.
    set (built := {| Context.workingDirectory := _ |}).
    destruct (Hlaunch built) as [r [Hr _]].
    exists built, r. split; [reflexivity |]. split; [exact Hr |].
    rewrite Hr. destruct (success r); reflexivity.
  - split; [discriminate |]. split; [reflexivity |].
    split; [congruence |]. split; [reflexivity |].
    split; congruence.
  - split; [reflexivity |]. split; [congruence |].
    split; [congruence |]. split; [discriminate |].
    split; [reflexivity | congruence].
  - split; [reflexivity |]. split; [congruence |].
    split; [congruence |]. split; [reflexivity |].
    split; congruence.
Qed.

(** ** Validation of the template *)

Lemma allWhiteSpace_not_startsWith_brace (s rest : string) :
  JS.allWhiteSpace s = true -> JS.startsWith s (String "{" rest) = false.
Proof.
  destruct s as [| c s]; [reflexivity |].
  cbn [JS.allWhiteSpace JS.startsWith prefix]. intros H.
  apply andb_true_iff in H. destruct H as [Hc _].
  destruct (ascii_dec "{" c) as [<- | _]; [| reflexivity].
  discriminate Hc.
Qed.

(** A template of white space holds no placeholder. *)
Lemma allWhiteSpace_no_placeholder (s rest : string) :
  JS.allWhiteSpace s = true -> JS.includes s (String "{" rest) = false.
Proof.
  induction s as [| c s IH]; intros H.
  - reflexivity.
  - cbn [JS.includes]. rewrite (allWhiteSpace_not_startsWith_brace _ _ H).
    cbn [JS.allWhiteSpace] in H. apply andb_true_iff in H. destruct H as [_ H].
    rewrite (IH H). reflexivity.
Qed.

(** C6, as the specification states it, fails at the empty template: the
    handler reports nothing about it, and stores it. *)
Lemma terminalCommandOnChange_empty_counterexample :
  ~ (forall (value : string) (st : PluginState),
        JS.trim value = "" ->
        notices (terminalCommandOnChange value st) <> notices st).
Proof.
  intros H.
  apply (H ""
           {| settings := getDefaultSettings "linux";
              data := getDefaultSettings "linux";
              notices := [] |}); reflexivity.
Qed.

(** C6, amended: the handler knows one failure, the missing placeholder.
    It reports it for every non-empty template that lacks [{DIR}] or
    [{CMD}], a template of white space included, and for
    [no placeholders here]; it reports nothing for the empty template and
    for a template with both placeholders; it stores the value in every
    case. *)
Theorem terminalCommandOnChange_validation (value : string) (st : PluginState) :
  let st' := terminalCommandOnChange value st in
  Settings.terminalCommand (settings st') = value
  /\ data st' = settings st'
  /\ (value = "" -> notices st' = notices st)
  /\ (value <> "" ->
      JS.includes value "{DIR}" = false \/ JS.includes value "{CMD}" = false ->
      notices st' = (notices st ++ [missingPlaceholderNotice])%list)
  /\ (value <> "" -> JS.allWhiteSpace value = true ->
      notices st' = (notices st ++ [missingPlaceholderNotice])%list)
  /\ (JS.includes value "{DIR}" = true -> JS.includes value "{CMD}" = true ->
      notices st' = notices st)
  /\ notices (terminalCommandOnChange "no placeholders here" st)
     = (notices st ++ [missingPlaceholderNotice])%list.
Proof.
  assert (Hmiss : value <> "" ->
            JS.includes value "{DIR}" = false \/ JS.includes value "{CMD}" = false ->
            notices (terminalCommandOnChange value st)
            = (notices st ++ [missingPlaceholderNotice])%list).
  { intros Hne Hm. unfold terminalCommandOnChange. cbn [notices].
    destruct value as [| c v]; [congruence |]. cbn [JS.truthy andb].
    destruct Hm as [-> | ->]; [reflexivity |].
    rewrite orb_true_r. reflexivity. }
  cbv zeta. repeat split.
  - intros ->. reflexivity.
  - exact Hmiss.
  - intros Hne Hw. apply Hmiss; [exact Hne |].
    left. apply allWhiteSpace_no_placeholder, Hw.
  - intros Hd Hc. unfold terminalCommandOnChange. cbn [notices].
    rewrite Hd, Hc. cbn. rewrite andb_false_r. reflexivity.
Qed.

(** ** Substitution of the placeholders *)

Lemma append_nil_r (s : string) : s ++ "" = s.
Proof. induction s as [| c s IH]; [reflexivity | cbn; now rewrite IH]. Qed.

Lemma append_assoc (s1 s2 s3 : string) : (s1 ++ s2) ++ s3 = s1 ++ (s2 ++ s3).
Proof. induction s1 as [| c s1 IH]; [reflexivity | cbn; now rewrite IH]. Qed.

Lemma prefix_nil (s : string) : prefix "" s = true.
Proof. destruct s; reflexivity. Qed.

Lemma length_append (s1 s2 : string) :
  String.length (s1 ++ s2) = String.length s1 + String.length s2.
Proof. induction s1 as [| c s1 IH]; [reflexivity | cbn; now rewrite IH]. Qed.

(** A string without the character [c]: the head is another character and
    the tail is without [c]. *)
Lemma includes_char_cons (c a : ascii) (s : string) :
  JS.includes (String a s) (String c "") = false ->
  a <> c /\ JS.includes s (String c "") = false.
Proof.
  cbn [JS.includes JS.startsWith prefix]. intros H.
  apply orb_false_iff in H. destruct H as [Hp Hi].
  split; [| exact Hi].
  destruct (ascii_dec c a) as [-> | Hn]; [| congruence].
  destruct s; discriminate Hp.
Qed.

Lemma startsWith_other_head (a c : ascii) (s rest : string) :
  a <> c -> JS.startsWith (String a s) (String c rest) = false.
Proof.
  intros Hn. cbn [JS.startsWith prefix].
  destruct (ascii_dec c a) as [-> | _]; [congruence | reflexivity].
Qed.

(** Without a dollar sign the replacement text is inserted as it is. *)
Lemma getSubstitution_no_dollar (matched before after replacement : string) :
  JS.includes replacement "$" = false ->
  JS.getSubstitution matched before after replacement = replacement.
Proof.
  induction replacement as [| c r IH]; intros H; [reflexivity |].
  apply includes_char_cons in H. destruct H as [Hc Hr].
  cbn [JS.getSubstitution].
  destruct (Ascii.eqb_spec c "$") as [-> | _]; [congruence |].
  rewrite (IH Hr). reflexivity.
Qed.

(** Scanning for a pattern that begins with a brace copies a text without
    braces. *)
Lemma replaceAllFrom_copy (ptail replacement pre rest before : string) :
  JS.includes pre "{" = false ->
  JS.replaceAllFrom (String "{" ptail) replacement before (pre ++ rest) 0
  = pre ++ JS.replaceAllFrom (String "{" ptail) replacement (before ++ pre) rest 0.
Proof.
  revert before. induction pre as [| c pre IH]; intros before H.
  - cbn [append]. rewrite append_nil_r. reflexivity.
  - apply includes_char_cons in H. destruct H as [Hc Hp].
    cbn [append JS.replaceAllFrom].
    rewrite (startsWith_other_head _ _ _ _ Hc).
    rewrite (IH _ Hp), append_assoc. reflexivity.
Qed.

Lemma replaceAllFrom_no_brace (ptail replacement s before : string) :
  JS.includes s "{" = false ->
  JS.replaceAllFrom (String "{" ptail) replacement before s 0 = s.
Proof.
  intros H.
  rewrite <- (append_nil_r s) at 1.
  rewrite (replaceAllFrom_copy _ _ _ _ _ H). cbn [JS.replaceAllFrom].
  apply append_nil_r.
Qed.

(** The [{DIR}] pass leaves [{CMD}] alone. *)
Lemma replaceAll_DIR_over_CMD (wd pre post : string) :
  JS.includes pre "{" = false -> JS.includes post "{" = false ->
  JS.replaceAll "{DIR}" wd (pre ++ "{CMD}" ++ post) = pre ++ "{CMD}" ++ post.
Proof.
  intros Hpre Hpost. unfold JS.replaceAll.
  rewrite (replaceAllFrom_copy _ _ _ _ _ Hpre).
  cbn. rewrite (replaceAllFrom_no_brace _ _ _ _ Hpost). reflexivity.
Qed.

(** Each pass replaces its placeholder by the value, where the value has
    no dollar sign and the text around the placeholder no brace. *)
Lemma replaceAll_CMD_at (cmd pre post : string) :
  JS.includes pre "{" = false -> JS.includes post "{" = false ->
  JS.includes cmd "$" = false ->
  JS.replaceAll "{CMD}" cmd (pre ++ "{CMD}" ++ post) = pre ++ cmd ++ post.
Proof.
  intros Hpre Hpost Hcmd. unfold JS.replaceAll.
  rewrite (replaceAllFrom_copy _ _ _ _ _ Hpre).
  cbn. rewrite prefix_nil, (getSubstitution_no_dollar _ _ _ _ Hcmd).
  rewrite (replaceAllFrom_no_brace _ _ _ _ Hpost). reflexivity.
Qed.

Lemma replaceAll_DIR_at (wd pre post : string) :
  JS.includes pre "{" = false -> JS.includes post "{" = false ->
  JS.includes wd "$" = false ->
  JS.replaceAll "{DIR}" wd (pre ++ "{DIR}" ++ post) = pre ++ wd ++ post.
Proof.
  intros Hpre Hpost Hwd. unfold JS.replaceAll.
  rewrite (replaceAllFrom_copy _ _ _ _ _ Hpre).
  cbn. rewrite prefix_nil, (getSubstitution_no_dollar _ _ _ _ Hwd).
  rewrite (replaceAllFrom_no_brace _ _ _ _ Hpost). reflexivity.
Qed.

Lemma includes_char_cons_false (c a : ascii) (s : string) :
  a <> c -> JS.includes s (String c "") = false ->
  JS.includes (String a s) (String c "") = false.
Proof.
  intros Hn Hs. cbn [JS.includes]. rewrite Hs.
  rewrite (startsWith_other_head _ _ _ _ Hn). reflexivity.
Qed.

Lemma includes_char_app (c : ascii) (s1 s2 : string) :
  JS.includes s1 (String c "") = false ->
  JS.includes s2 (String c "") = false ->
  JS.includes (s1 ++ s2) (String c "") = false.
Proof.
  intros H1 H2. induction s1 as [| a s1 IH]; [exact H2 |].
  apply includes_char_cons in H1. destruct H1 as [Hn H1].
  cbn [append]. apply includes_char_cons_false; [exact Hn | exact (IH H1)].
Qed.



Section Passes.

Variables (wd cmd : string).
Hypothesis wd_no_dollar : JS.includes wd "$" = false.
Hypothesis cmd_no_dollar : JS.includes cmd "$" = false.




End Passes.



(** ** The script of [osascript] *)

Lemma startsWith_append (l rest : string) : JS.startsWith (l ++ rest) l = true.
Proof.
  unfold JS.startsWith. induction l as [| c l IH]; cbn.
  - apply prefix_nil.
  - destruct (ascii_dec c c) as [_ | Hn]; [exact IH | congruence].
Qed.

Lemma includes_startsWith (s pat : string) :
  JS.startsWith s pat = true -> JS.includes s pat = true.
Proof. intros H. destruct s; cbn [JS.includes]; rewrite H; reflexivity. Qed.

Lemma drop_append (l rest : string) : JS.drop (String.length l) (l ++ rest) = rest.
Proof. induction l as [| c l IH]; [reflexivity | exact IH]. Qed.

Lemma substring_append_left (p q : string) :
  substring 0 (String.length (p ++ q) - String.length q) (p ++ q) = p.
Proof.
  rewrite length_append, Nat.add_sub.
  induction p as [| c p IH]; cbn.
  - destruct q; reflexivity.
  - now rewrite IH.
Qed.

Section Matcher.

Variables (cap : string) (k : RegExp.Cont).

Lemma run_Cat (r1 r2 : RegExp.regex) (s : string) :
  RegExp.run (RegExp.Cat r1 r2) s cap k
  = RegExp.run r1 s cap (fun s' cap' => RegExp.run r2 s' cap' k).
Proof. reflexivity. Qed.

Lemma run_Lit_here (l s rest : string) :
  s = l ++ rest -> RegExp.run (RegExp.Lit l) s cap k = k rest cap.
Proof.
  intros ->. cbn [RegExp.run]. now rewrite startsWith_append, drop_append.
Qed.

(** A run of white space followed by another character: the greedy
    repetition takes the whole run when the continuation accepts what
    follows. *)
Lemma star_whiteSpace_run (ws : string) (d : ascii) (rest r : string) :
  JS.allWhiteSpace ws = true -> JS.isWhiteSpace d = false ->
  k (String d rest) cap = Some r ->
  RegExp.star JS.isWhiteSpace (ws ++ String d rest) cap k = Some r.
Proof.
  intros Hws Hd Hk. induction ws as [| c ws IH].
  - cbn [append RegExp.star]. rewrite Hd. exact Hk.
  - cbn [JS.allWhiteSpace] in Hws. apply andb_true_iff in Hws.
    destruct Hws as [Hc Hws].
    cbn [append RegExp.star]. rewrite Hc, (IH Hws). reflexivity.
Qed.

Lemma run_Plus_whiteSpace (ws : string) (d : ascii) (rest r : string) :
  ws <> "" -> JS.allWhiteSpace ws = true -> JS.isWhiteSpace d = false ->
  k (String d rest) cap = Some r ->
  RegExp.run (RegExp.Plus JS.isWhiteSpace) (ws ++ String d rest) cap k = Some r.
Proof.
  intros Hne Hws Hd Hk. destruct ws as [| c ws]; [congruence |].
  cbn [JS.allWhiteSpace] in Hws. apply andb_true_iff in Hws.
  destruct Hws as [Hc Hws].
  cbn [append RegExp.run]. rewrite Hc.
  apply star_whiteSpace_run; assumption.
Qed.

(** The greedy [.*] before a quote runs to the end of a single-line text
    and gives back one character, the closing quote. *)
Lemma star_isDot_to_last_quote (p : string) :
  JS.singleLine p = true ->
  k "" cap = None ->
  (exists r, k "'" cap = Some r) ->
  RegExp.star JS.isDot (p ++ "'") cap k = k "'" cap.
Proof.
  intros Hp Hnil [r Hr].
  induction p as [| c p IH].
  - cbn. rewrite Hnil. reflexivity.
  - cbn [JS.singleLine] in Hp. apply andb_true_iff in Hp. destruct Hp as [Hc Hp].
    cbn [append RegExp.star]. rewrite Hc, (IH Hp), Hr. reflexivity.
Qed.

End Matcher.

(** The group [(.+)] in front of a quote captures a single-line text that
    ends the input before its closing quote. *)
Lemma run_Group_dots (payload cap r : string) (k : RegExp.Cont) :
  payload <> "" -> JS.singleLine payload = true ->
  (forall cap', k "" cap' = None) ->
  k "'" payload = Some r ->
  RegExp.run (RegExp.Group (RegExp.Plus JS.isDot)) (payload ++ "'") cap k
  = Some r.
Proof.
  intros Hne Hp Hnil Hr.
  destruct payload as [| c p]; [congruence |].
  cbn [JS.singleLine] in Hp. apply andb_true_iff in Hp. destruct Hp as [Hc Hp].
  cbn [append RegExp.run]. rewrite Hc.
  rewrite star_isDot_to_last_quote.
  - change (String c (p ++ "'")) with (String c p ++ "'").
    rewrite substring_append_left. exact Hr.
  - exact Hp.
  - apply Hnil.
  - change (String c (p ++ "'")) with (String c p ++ "'").
    rewrite substring_append_left. eexists; exact Hr.
Qed.

Lemma exec_unfold (r : RegExp.regex) (s : string) :
  RegExp.exec r s =
  match RegExp.run r s "" (fun _ cap => Some cap) with
  | Some cap => Some cap
  | None => match s with EmptyString => None | String _ s' => RegExp.exec r s' end
  end.
Proof. destruct s; reflexivity. Qed.

(** The expression matches [osascript -e '...'] at its start, whatever
    white space separates the words, and captures the text between the
    quotes. *)
Lemma exec_scriptRegExp (ws1 ws2 payload : string) :
  ws1 <> "" -> JS.allWhiteSpace ws1 = true ->
  ws2 <> "" -> JS.allWhiteSpace ws2 = true ->
  payload <> "" -> JS.singleLine payload = true ->
  RegExp.exec scriptRegExp
    ("osascript" ++ ws1 ++ "-e" ++ ws2 ++ "'" ++ payload ++ "'")
  = Some payload.
Proof.
  intros Hne1 Hws1 Hne2 Hws2 Hne Hp. rewrite exec_unfold.
  assert (Hrun : RegExp.run scriptRegExp
                   ("osascript" ++ ws1 ++ "-e" ++ ws2 ++ "'" ++ payload ++ "'")
                   "" (fun _ cap => Some cap) = Some payload).
  { unfold scriptRegExp.
    rewrite run_Cat. erewrite run_Lit_here by reflexivity. rewrite run_Cat.
    apply (run_Plus_whiteSpace _ _ ws1 "-" ("e" ++ ws2 ++ "'" ++ payload ++ "'"));
      [assumption | assumption | reflexivity |].
    rewrite run_Cat.
    rewrite (run_Lit_here _ _ "-e" _ (ws2 ++ "'" ++ payload ++ "'") eq_refl).
    rewrite run_Cat.
    apply (run_Plus_whiteSpace _ _ ws2 "'" (payload ++ "'"));
      [assumption | assumption | reflexivity |].
    rewrite run_Cat.
    rewrite (run_Lit_here _ _ "'" _ (payload ++ "'") eq_refl).
    rewrite run_Cat.
    apply run_Group_dots; [assumption | assumption | reflexivity |].
    rewrite (run_Lit_here _ _ "'" "'" "" eq_refl). reflexivity. }
  rewrite Hrun. reflexivity.
Qed.

Lemma resolveCommand_darwin (terminalCommand : string) :
  resolveCommand "darwin" terminalCommand =
  if JS.includes terminalCommand "osascript" then
    ("osascript",
     ["-e"; match RegExp.exec scriptRegExp terminalCommand with
            | Some script => script
            | None => JS.replaceFirst "osascript -e " "" terminalCommand
            end], false)
  else ("/bin/sh", ["-c"; terminalCommand], false).
Proof.
  unfold resolveCommand.
  change ("darwin" =? "win32") with false. change ("darwin" =? "darwin") with true.
  cbn [andb]. destruct (JS.includes terminalCommand "osascript"); [| reflexivity].
  destruct (RegExp.exec scriptRegExp terminalCommand); reflexivity.
Qed.

(** The quotes are not stripped from every script: for a script of
    several lines [.] matches no line terminator, the expression does not
    match, and the argument keeps its quotes. *)
Lemma resolveCommand_script_counterexample :
  ~ (forall payload : string,
        resolveCommand "darwin" ("osascript -e '" ++ payload ++ "'")
        = ("osascript", ["-e"; payload], false)).
Proof.
  intros H. specialize (H ("a" ++ JS.LF ++ "b")).
  vm_compute in H. discriminate H.
Qed.

(** On macOS a substituted template that contains [osascript] is run by
    [osascript] with the arguments [-e] and one script, never split
    further.  The script is the text captured by the expression when it
    matches, in particular the text between the quotes of
    [osascript -e '...'] when that text is not empty and has no line
    terminator. *)
Theorem resolveCommand_darwin_osascript (terminalCommand ws1 ws2 payload : string) :
  JS.includes terminalCommand "osascript" = true ->
  ws1 <> "" -> JS.allWhiteSpace ws1 = true ->
  ws2 <> "" -> JS.allWhiteSpace ws2 = true ->
  payload <> "" -> JS.singleLine payload = true ->
  (exists script,
      resolveCommand "darwin" terminalCommand = ("osascript", ["-e"; script], false)
      /\ script = match RegExp.exec scriptRegExp terminalCommand with
                  | Some captured => captured
                  | None => JS.replaceFirst "osascript -e " "" terminalCommand
                  end)
  /\ resolveCommand "darwin"
       ("osascript" ++ ws1 ++ "-e" ++ ws2 ++ "'" ++ payload ++ "'")
     = ("osascript", ["-e"; payload], false).
Proof.
  intros Hi Hne1 Hws1 Hne2 Hws2 Hne Hp. split.
  - rewrite resolveCommand_darwin, Hi. eexists. split; reflexivity.
  - rewrite resolveCommand_darwin.
    rewrite includes_startsWith by apply startsWith_append.
    rewrite exec_scriptRegExp by assumption. reflexivity.
Qed.

Lemma resolveCommand_darwin_osascript_witness :
  (exists script,
      resolveCommand "darwin" "exec osascript launch.scpt"
      = ("osascript", ["-e"; script], false)
      /\ script = "exec osascript launch.scpt")
  /\ resolveCommand "darwin" "osascript -e 'tell application id 1 to activate'"
     = ("osascript", ["-e"; "tell application id 1 to activate"], false).
Proof.
  apply (resolveCommand_darwin_osascript
           "exec osascript launch.scpt" " " " "
           "tell application id 1 to activate");
    first [reflexivity | discriminate].
Defined.

(** C7: the code at a script of two lines.  The expression is written to
    take the script between the quotes, and for a script on one line the
    quotes are stripped; for the same script on two lines the expression
    does not match, and [osascript] gets the text with its quotes. *)
Theorem resolveCommand_script_of_several_lines :
  resolveCommand "darwin" "osascript -e 'say 1; say 2'"
  = ("osascript", ["-e"; "say 1; say 2"], false)
  /\ RegExp.exec scriptRegExp ("osascript -e 'say 1" ++ JS.LF ++ "say 2'") = None
  /\ resolveCommand "darwin" ("osascript -e 'say 1" ++ JS.LF ++ "say 2'")
     = ("osascript", ["-e"; "'say 1" ++ JS.LF ++ "say 2'"], false).
Proof. repeat split; reflexivity. Qed.
(** ** Further properties: defaults, results and notices *)

(** A template with both placeholders passes the handler without notice. *)
Lemma terminalCommandOnChange_quiet (value : string) (st : PluginState) :
  JS.includes value "{DIR}" = true -> JS.includes value "{CMD}" = true ->
  notices (terminalCommandOnChange value st) = notices st.
Proof.
  intros Hd Hc. unfold terminalCommandOnChange. cbn [notices].
  rewrite Hd, Hc. cbn [negb orb]. rewrite andb_false_r. reflexivity.
Qed.

(** X1: on every platform the default template holds both placeholders,
    so the handler of the settings tab accepts it without notice. *)
Theorem getDefaultSettings_template_valid (platform : string) (st : PluginState) :
  let template := Settings.terminalCommand (getDefaultSettings platform) in
  JS.includes template "{DIR}" = true
  /\ JS.includes template "{CMD}" = true
  /\ notices (terminalCommandOnChange template st) = notices st.
Proof.
  cbv zeta.
  assert (H : JS.includes (Settings.terminalCommand (getDefaultSettings platform))
                "{DIR}" = true
              /\ JS.includes (Settings.terminalCommand (getDefaultSettings platform))
                   "{CMD}" = true).
  { unfold getDefaultSettings.
    destruct (platform =? "darwin"); [split; reflexivity |].
    destruct (platform =? "win32"); [split; reflexivity |].
    destruct (platform =? "linux"); split; reflexivity. }
  destruct H as [Hd Hc]. split; [exact Hd |]. split; [exact Hc |].
  apply terminalCommandOnChange_quiet; assumption.
Qed.

(** What [spawnTerminal] can answer: a success without message, or a
    failure with one of three kinds of message. *)
Lemma spawnTerminal_results (h : Host) (executable : string)
    (args : list string) (useShell : bool) :
  exists r, spawnTerminal h executable args useShell = Fulfilled r
    /\ ((success r = true /\ error r = None)
        \/ (success r = false
            /\ (error r = Some ERROR_MESSAGES.COMMAND_NOT_FOUND
                \/ error r = Some ERROR_MESSAGES.PERMISSION_DENIED
                \/ exists m, error r = Some (ERROR_MESSAGES.SPAWN_FAILED ++ m)))).
Proof.
  unfold spawnTerminal.
  destruct (spawn h executable args _) as [m | early late].
  - eexists. split; [reflexivity |]. right. split; [reflexivity |].
    right; right. eexists; reflexivity.
  - destruct early as [| e early]; cbn [map app settle].
    + eexists. split; [reflexivity |]. left. split; reflexivity.
    + eexists. split; [reflexivity |]. right. split; [reflexivity |].
      unfold onSpawnError. cbn [error].
      destruct (code e) as [c |]; [| right; right; eexists; reflexivity].
      destruct (c =? "ENOENT"); [left; reflexivity |].
      destruct (c =? "EACCES"); [right; left; reflexivity |].
      right; right; eexists; reflexivity.
Qed.

(** X2: every launch ends with a result.  The result is a success without
    message, or a failure with one of four messages: the invalid path, the
    command not found, the permission denied, or the spawn failure
    followed by the text of the underlying error.  [success] and [error]
    never disagree. *)
Theorem launchTerminal_results (h : Host) (context : LaunchContext) :
  exists r, launchTerminal h context = Fulfilled r
    /\ ((success r = true /\ error r = None)
        \/ (success r = false
            /\ (error r = Some ERROR_MESSAGES.INVALID_PATH
                \/ error r = Some ERROR_MESSAGES.COMMAND_NOT_FOUND
                \/ error r = Some ERROR_MESSAGES.PERMISSION_DENIED
                \/ exists m, error r = Some (ERROR_MESSAGES.SPAWN_FAILED ++ m)))).
Proof.
  rewrite launchTerminal_unfold.
  destruct (validatePath h (Context.workingDirectory context)).
  - destruct (resolveCommand _ _) as [[executable args] useShell].
    destruct (spawnTerminal_results h executable args useShell)
      as [r [Hr [Hok | [Hf Hm]]]]; exists r; (split; [exact Hr |]).
    + left; exact Hok.
    + right. split; [exact Hf |]. right; exact Hm.
  - eexists. split; [reflexivity |]. right. split; [reflexivity |].
    left; reflexivity.
Qed.

(** The third component of [resolveCommand] is always [false]: the shell
    option of [spawn] is never set. *)
Lemma resolveCommand_useShell (platform terminalCommand : string) :
  snd (resolveCommand platform terminalCommand) = false.
Proof.
  unfold resolveCommand.
  destruct (platform =? "win32"); [reflexivity |].
  destruct ((platform =? "darwin") && _); [| reflexivity].
  destruct (RegExp.exec _ _); reflexivity.
Qed.

(** X3: a launch succeeds exactly when the path check passes and [spawn],
    called detached, without streams, with its window hidden and without
    shell, returns a child that reports no error before the timer fires;
    errors reported later do not count. *)
Theorem launchTerminal_success_iff (h : Host) (context : LaunchContext) :
  launchTerminal h context = Fulfilled {| success := true; error := None |}
  <-> validatePath h (Context.workingDirectory context) = true
      /\ exists late,
           (let '(executable, args, _) :=
              resolveCommand (platform h) (substitutePlaceholders context) in
            spawn h executable args
              {| detached := true; stdio := "ignore"; windowsHide := true;
                 shell := false |}) = SpawnReturns [] late.
Proof.
  rewrite launchTerminal_unfold.
  destruct (validatePath h (Context.workingDirectory context)).
  - pose proof (resolveCommand_useShell (platform h)
                  (substitutePlaceholders context)) as Hu.
    destruct (resolveCommand _ _) as [[executable args] useShell].
    cbn [snd] in Hu. subst useShell. unfold spawnTerminal.
    destruct (spawn h executable args _) as [m | early late].
    + cbn [settle]. split; [discriminate |].
      intros [_ [late Hl]]. discriminate Hl.
    + destruct early as [| e early]; cbn [map app settle].
      * split; [intros _; split; [reflexivity | exists late; reflexivity] |
                reflexivity].
      * split.
        -- intros H.
           apply (f_equal (fun p => match p with
                                    | Fulfilled r => success r
                                    | _ => false
                                    end)) in H.
           discriminate H.
        -- intros [_ [late' Hl]]. discriminate Hl.
  - split; [discriminate | intros [Hv _]; discriminate Hv].
Qed.

(** X4: whatever the platform and the template, the process started is
    one of three fixed programs, [cmd], [osascript] or [/bin/sh], with two
    arguments: a fixed switch and one text.  No word of the template
    becomes the executable or an argument of its own.  [cmd] is used
    exactly on Windows, [osascript] only on macOS for a template that
    names it, and outside the [osascript] branch the text is the whole
    substituted template. *)
Theorem resolveCommand_shape (platform terminalCommand : string) :
  exists executable switch text,
    resolveCommand platform terminalCommand = (executable, [switch; text], false)
    /\ ((executable = "cmd" /\ switch = "/c")
        \/ (executable = "osascript" /\ switch = "-e")
        \/ (executable = "/bin/sh" /\ switch = "-c"))
    /\ (executable = "cmd" <-> platform = "win32")
    /\ (executable = "osascript" ->
        platform = "darwin" /\ JS.includes terminalCommand "osascript" = true)
    /\ (executable <> "osascript" -> text = terminalCommand).
Proof.
  unfold resolveCommand.
  destruct (String.eqb_spec platform "win32") as [Hw | Hw].
  - exists "cmd", "/c", terminalCommand. split; [reflexivity |].
    split; [left; split; reflexivity |].
    split; [split; intros _; [exact Hw | reflexivity] |].
    split; [discriminate | reflexivity].
  - destruct (String.eqb_spec platform "darwin") as [Hd | Hd]; cbn [andb].
    + destruct (JS.includes terminalCommand "osascript") eqn:Hi.
      * destruct (RegExp.exec scriptRegExp terminalCommand) as [script |];
          eexists "osascript", "-e", _; (split; [reflexivity |]);
          (split; [right; left; split; reflexivity |]);
          (split; [split; [discriminate | intros Hp; congruence] |]);
          (split; [intros _; split; [exact Hd | reflexivity] | congruence]).
      * exists "/bin/sh", "-c", terminalCommand. split; [reflexivity |].
        split; [right; right; split; reflexivity |].
        split; [split; [discriminate | intros Hp; congruence] |].
        split; [discriminate | reflexivity].
    + exists "/bin/sh", "-c", terminalCommand. split; [reflexivity |].
      split; [right; right; split; reflexivity |].
      split; [split; [discriminate | intros Hp; congruence] |].
      split; [discriminate | reflexivity].
Qed.

(** X5: [launchClaudeCode] always ends, and shows exactly one notice.
    Its [catch] clause never runs, since it tests what
    [buildLaunchContext] would throw on before calling it and
    [launchTerminal] does not reject; the text kept for a failure without
    message is never needed; the notice of success is shown exactly when
    the context was built and the launch succeeded. *)
Theorem launchClaudeCode_one_notice (h : Host) (app : App) (file : TFile)
    (settings : LauncherSettings) :
  exists n,
    launchClaudeCode h app file settings = Fulfilled [n]
    /\ JS.startsWith (notice_message n) "Error: " = false
    /\ notice_message n <> "Failed to launch Claude Code"
    /\ (notice_message n = "Claude Code launched successfully"
        <-> exists context,
              buildLaunchContext h app file settings = Normal context
              /\ launchTerminal h context
                 = Fulfilled {| success := true; error := None |}).
Proof.
  unfold launchClaudeCode, buildLaunchContext.
  destruct (parent file) as [folder |].
  - destruct (vault_adapter app) as [vaultPath |].
    + set (context := {| Context.workingDirectory := _ |}).
      destruct (launchTerminal_results h context)
        as [r [Hr [[Hs He] | [Hs He]]]]; rewrite Hr, Hs.
      * eexists. split; [reflexivity |]. split; [reflexivity |].
        split; [discriminate |]. cbn [notice_message].
        split; [intros _ | reflexivity].
        exists context. split; [reflexivity |].
        destruct r as [s e]. cbn in Hs, He. subst s e. exact Hr.
      * assert (Hno : forall c,
                   Normal context = Normal c ->
                   launchTerminal h c
                   = Fulfilled {| success := true; error := None |} -> False).
        { intros c Hc Hl. injection Hc as <-. rewrite Hr in Hl.
          injection Hl as Hl. rewrite Hl in Hs. discriminate Hs. }
        destruct He as [He | [He | [He | [m He]]]]; rewrite He;
          (eexists; split; [reflexivity |]); cbn [JS.truthy notice_message];
          (split; [reflexivity |]); (split; [discriminate |]);
          (split; [discriminate | intros [c [Hc Hl]]; destruct (Hno c Hc Hl)]).
    + eexists. split; [reflexivity |]. split; [reflexivity |].
      split; [discriminate |].
      split; [discriminate | intros [c [Hc _]]; discriminate Hc].
  - eexists. split; [reflexivity |]. split; [reflexivity |].
    split; [discriminate |].
    split; [discriminate |].
    intros [c [Hc _]]. destruct (vault_adapter app); discriminate Hc.
Qed.

(** ** Further properties: substitution *)

(** Where the pattern does not occur, the global replacement copies. *)
Lemma replaceAllFrom_absent (pat replacement s before : string) :
  JS.includes s pat = false ->
  JS.replaceAllFrom pat replacement before s 0 = s.
Proof.
  revert before. induction s as [| c s IH]; intros before H; [reflexivity |].
  cbn [JS.includes] in H. apply orb_false_iff in H. destruct H as [Hp Hi].
  cbn [JS.replaceAllFrom]. rewrite Hp, (IH _ Hi). reflexivity.
Qed.

(** X6: a template in which neither placeholder occurs is passed on as it
    is, whatever the working directory and the command: nothing of the
    launch request reaches the command line. *)
Theorem substitutePlaceholders_without_placeholders (context : LaunchContext) :
  JS.includes (Context.terminalCommand context) "{DIR}" = false ->
  JS.includes (Context.terminalCommand context) "{CMD}" = false ->
  substitutePlaceholders context = Context.terminalCommand context.
Proof.
  intros Hd Hc. unfold substitutePlaceholders, JS.replaceAll.
  rewrite (replaceAllFrom_absent _ _ _ _ Hd).
  apply replaceAllFrom_absent, Hc.
Qed.

Lemma substitutePlaceholders_without_placeholders_witness :
  substitutePlaceholders
    {| Context.workingDirectory := "/home/me/vault";
       Context.command := "claude-code";
       Context.terminalCommand := "xterm -e ${SHELL} {dir} {CMD" |}
  = "xterm -e ${SHELL} {dir} {CMD".
Proof.
  apply (substitutePlaceholders_without_placeholders
           {| Context.workingDirectory := "/home/me/vault";
              Context.command := "claude-code";
              Context.terminalCommand := "xterm -e ${SHELL} {dir} {CMD" |});
    reflexivity.
Defined.

(** A template of the shape of the defaults: the directory placeholder,
    then the command placeholder, in text without braces. *)
Lemma substitute_DIR_then_CMD (pre mid post wd command : string) :
  JS.includes pre "{" = false -> JS.includes mid "{" = false ->
  JS.includes post "{" = false ->
  JS.includes wd "{" = false -> JS.includes wd "$" = false ->
  JS.includes command "$" = false ->
  substitutePlaceholders
    {| Context.workingDirectory := wd;
       Context.command := command;
       Context.terminalCommand := pre ++ "{DIR}" ++ mid ++ "{CMD}" ++ post |}
  = pre ++ wd ++ mid ++ command ++ post.
Proof.
  intros Hpre Hmid Hpost Hwd Hwd' Hcmd.
  unfold substitutePlaceholders.
  cbn [Context.workingDirectory Context.command Context.terminalCommand].
  assert (Hdir : JS.replaceAll "{DIR}" wd (pre ++ "{DIR}" ++ mid ++ "{CMD}" ++ post)
                 = pre ++ wd ++ mid ++ "{CMD}" ++ post).
  { unfold JS.replaceAll.
    rewrite (replaceAllFrom_copy _ _ _ _ _ Hpre).
    cbn. rewrite prefix_nil, (getSubstitution_no_dollar _ _ _ _ Hwd').
    rewrite (replaceAllFrom_copy _ _ _ _ _ Hmid).
    cbn. rewrite (replaceAllFrom_no_brace _ _ _ _ Hpost). reflexivity. }
  rewrite Hdir.
  rewrite <- (append_assoc wd mid), <- (append_assoc pre).
  rewrite replaceAll_CMD_at; [| | exact Hpost | exact Hcmd].
  - rewrite !append_assoc. reflexivity.
  - apply includes_char_app; [exact Hpre |].
    apply includes_char_app; assumption.
Qed.

(** X7: for a template that names the directory and the command, each
    once, in either order, in text without braces, substitution puts the
    two values in their places and changes nothing else.  (Working
    directory without brace or dollar sign, command without dollar
    sign.) *)
Theorem substitutePlaceholders_fills_both (pre mid post wd command : string) :
  JS.includes pre "{" = false -> JS.includes mid "{" = false ->
  JS.includes post "{" = false ->
  JS.includes wd "{" = false -> JS.includes wd "$" = false ->
  JS.includes command "$" = false ->
  substitutePlaceholders
    {| Context.workingDirectory := wd;
       Context.command := command;
       Context.terminalCommand := pre ++ "{DIR}" ++ mid ++ "{CMD}" ++ post |}
  = pre ++ wd ++ mid ++ command ++ post
  /\ substitutePlaceholders
       {| Context.workingDirectory := wd;
          Context.command := command;
          Context.terminalCommand := pre ++ "{CMD}" ++ mid ++ "{DIR}" ++ post |}
     = pre ++ command ++ mid ++ wd ++ post.
Proof.
  intros Hpre Hmid Hpost Hwd Hwd' Hcmd.
  split; [apply substitute_DIR_then_CMD; assumption |].
  unfold substitutePlaceholders.
  cbn [Context.workingDirectory Context.command Context.terminalCommand].
  assert (Hdir : JS.replaceAll "{DIR}" wd (pre ++ "{CMD}" ++ mid ++ "{DIR}" ++ post)
                 = pre ++ "{CMD}" ++ mid ++ wd ++ post).
  { unfold JS.replaceAll.
    rewrite (replaceAllFrom_copy _ _ _ _ _ Hpre).
    cbn. rewrite (replaceAllFrom_copy _ _ _ _ _ Hmid).
    cbn. rewrite prefix_nil, (getSubstitution_no_dollar _ _ _ _ Hwd').
    rewrite (replaceAllFrom_no_brace _ _ _ _ Hpost). reflexivity. }
  rewrite Hdir. apply replaceAll_CMD_at; [exact Hpre | | exact Hcmd].
  apply includes_char_app; [exact Hmid |].
  apply includes_char_app; assumption.
Qed.

Lemma substitutePlaceholders_fills_both_witness :
  substitutePlaceholders
    {| Context.workingDirectory := "/home/me/vault";
       Context.command := "claude-code {DIR}";
       Context.terminalCommand := "konsole --workdir {DIR} -e {CMD} &" |}
  = "konsole --workdir /home/me/vault -e claude-code {DIR} &".
Proof.
  apply (substitutePlaceholders_fills_both
           "konsole --workdir " " -e " " &" "/home/me/vault" "claude-code {DIR}");
    reflexivity.
Defined.

(** The [{CMD}] pass at a placeholder between texts without braces, for
    any command: the replacement text goes through [getSubstitution]. *)
Lemma replaceAll_CMD_general (cmd pre post : string) :
  JS.includes pre "{" = false -> JS.includes post "{" = false ->
  JS.replaceAll "{CMD}" cmd (pre ++ "{CMD}" ++ post)
  = pre ++ JS.getSubstitution "{CMD}" pre post cmd ++ post.
Proof.
  intros Hpre Hpost. unfold JS.replaceAll.
  rewrite (replaceAllFrom_copy _ _ _ _ _ Hpre).
  cbn. rewrite prefix_nil.
  rewrite (replaceAllFrom_no_brace _ _ _ _ Hpost). reflexivity.
Qed.

Lemma getSubstitution_copy (matched before after c r : string) :
  JS.includes c "$" = false ->
  JS.getSubstitution matched before after (c ++ r)
  = c ++ JS.getSubstitution matched before after r.
Proof.
  induction c as [| a c IH]; intros H; [reflexivity |].
  apply includes_char_cons in H. destruct H as [Ha Hc].
  cbn [append JS.getSubstitution].
  destruct (Ascii.eqb_spec a "$") as [-> | _]; [congruence |].
  rewrite (IH Hc). reflexivity.
Qed.

(** X8: the command is not inserted letter for letter where it holds a
    dollar sign followed by one of four characters, which
    [String.replace] reads as patterns: a doubled dollar sign becomes a
    single one, dollar-ampersand becomes the placeholder itself,
    dollar-backquote the template text before the placeholder and
    dollar-quote the template text after it. *)
Theorem substitutePlaceholders_dollar_patterns (pre post wd c1 c2 : string) :
  JS.includes pre "{" = false -> JS.includes post "{" = false ->
  JS.includes c1 "$" = false -> JS.includes c2 "$" = false ->
  let resolve (command : string) :=
    substitutePlaceholders
      {| Context.workingDirectory := wd;
         Context.command := command;
         Context.terminalCommand := pre ++ "{CMD}" ++ post |} in
  resolve (c1 ++ "$$" ++ c2) = pre ++ c1 ++ "$" ++ c2 ++ post
  /\ resolve (c1 ++ "$&" ++ c2) = pre ++ c1 ++ "{CMD}" ++ c2 ++ post
  /\ resolve (c1 ++ "$`" ++ c2) = pre ++ c1 ++ pre ++ c2 ++ post
  /\ resolve (c1 ++ "$'" ++ c2) = pre ++ c1 ++ post ++ c2 ++ post.
Proof.
  intros Hpre Hpost H1 H2. cbv zeta. unfold substitutePlaceholders.
  cbn [Context.workingDirectory Context.command Context.terminalCommand].
  rewrite (replaceAll_DIR_over_CMD _ _ _ Hpre Hpost).
  rewrite !replaceAll_CMD_general by assumption.
  rewrite !(getSubstitution_copy _ _ _ c1) by assumption.
  cbn [append JS.getSubstitution Ascii.eqb Bool.eqb].
  rewrite !(getSubstitution_no_dollar _ _ _ c2) by assumption.
  rewrite !append_assoc. repeat split; reflexivity.
Qed.

Lemma substitutePlaceholders_dollar_patterns_witness :
  substitutePlaceholders
    {| Context.workingDirectory := "/home/me/vault";
       Context.command := "echo $$ > pid";
       Context.terminalCommand := "xterm -e {CMD}" |}
  = "xterm -e echo $ > pid".
Proof.
  apply (substitutePlaceholders_dollar_patterns
           "xterm -e " "" "/home/me/vault" "echo " " > pid"); reflexivity.
Defined.

Lemma singleLine_app (s1 s2 : string) :
  JS.singleLine (s1 ++ s2) = JS.singleLine s1 && JS.singleLine s2.
Proof.
  induction s1 as [| c s1 IH]; [reflexivity |].
  cbn [append JS.singleLine]. rewrite IH. apply andb_assoc.
Qed.

(** X9: the launch with the default template, outside macOS.  On Windows
    the command interpreter gets the line [start cmd /K "cd /D <dir> &&
    <command>"], elsewhere the shell gets the line of [gnome-terminal];
    directory and command stand in their places, and the result of the
    launch is the one of that process.  (Directory accepted by
    [validatePath], without brace or dollar sign; command without dollar
    sign.) *)
Theorem launchTerminal_default_template (h : Host) (wd command : string) :
  platform h <> "darwin" ->
  validatePath h wd = true ->
  JS.includes wd "{" = false -> JS.includes wd "$" = false ->
  JS.includes command "$" = false ->
  launchTerminal h
    {| Context.workingDirectory := wd;
       Context.command := command;
       Context.terminalCommand :=
         Settings.terminalCommand (getDefaultSettings (platform h)) |}
  = if platform h =? "win32" then
      spawnTerminal h "cmd"
        ["/c"; "start cmd /K " ++ dq ++ "cd /D " ++ wd ++ " && " ++ command ++ dq]
        false
    else
      spawnTerminal h "/bin/sh"
        ["-c"; "gnome-terminal --working-directory=" ++ dq ++ wd ++ dq
               ++ " -- bash -c " ++ dq ++ command ++ "; exec bash" ++ dq]
        false.
Proof.
  intros Hd Hv Hb Hs Hc. rewrite launchTerminal_unfold.
  cbn [Context.workingDirectory]. rewrite Hv.
  unfold getDefaultSettings, resolveCommand. cbn [Settings.terminalCommand].
  apply String.eqb_neq in Hd. rewrite Hd. cbn [andb].
  destruct (platform h =? "win32").
  - assert (Ht : substitutePlaceholders
                   {| Context.workingDirectory := wd;
                      Context.command := command;
                      Context.terminalCommand :=
                        "start cmd /K " ++ dq ++ "cd /D {DIR} && {CMD}" ++ dq |}
                 = "start cmd /K " ++ dq ++ "cd /D " ++ wd ++ " && " ++ command ++ dq).
    { apply (substitute_DIR_then_CMD ("start cmd /K " ++ dq ++ "cd /D ")
               " && " dq wd command); reflexivity || assumption. }
    rewrite Ht. reflexivity.
  - assert (Ht : substitutePlaceholders
                   {| Context.workingDirectory := wd;
                      Context.command := command;
                      Context.terminalCommand :=
                        "gnome-terminal --working-directory=" ++ dq ++ "{DIR}" ++ dq
                        ++ " -- bash -c " ++ dq ++ "{CMD}; exec bash" ++ dq |}
                 = "gnome-terminal --working-directory=" ++ dq ++ wd ++ dq
                   ++ " -- bash -c " ++ dq ++ command ++ "; exec bash" ++ dq).
    { apply (substitute_DIR_then_CMD ("gnome-terminal --working-directory=" ++ dq)
               (dq ++ " -- bash -c " ++ dq) ("; exec bash" ++ dq) wd command);
        reflexivity || assumption. }
    destruct (platform h =? "linux"); rewrite Ht; reflexivity.
Qed.

Lemma launchTerminal_default_template_witness :
  launchTerminal (posixHost "linux" spawnOk noDirectory)
    {| Context.workingDirectory := "/home/me/vault/notes";
       Context.command := "claude-code --verbose";
       Context.terminalCommand := Settings.terminalCommand (getDefaultSettings "linux") |}
  = spawnTerminal (posixHost "linux" spawnOk noDirectory) "/bin/sh"
      ["-c"; "gnome-terminal --working-directory=" ++ dq ++ "/home/me/vault/notes"
             ++ dq ++ " -- bash -c " ++ dq ++ "claude-code --verbose; exec bash" ++ dq]
      false.
Proof.
  apply (launchTerminal_default_template (posixHost "linux" spawnOk noDirectory)
           "/home/me/vault/notes" "claude-code --verbose");
    first [reflexivity | discriminate].
Defined.

(** X10: the launch with the default template on macOS.  [osascript] gets
    the switch [-e] and one script, [tell application "Terminal" to do
    script "cd <dir> && <command>"]: the quotes of the template are gone,
    directory and command stand in their places.  (Directory accepted by
    [validatePath]; directory and command on one line, without dollar
    sign, the directory without brace.) *)
Theorem launchTerminal_default_template_darwin (h : Host) (wd command : string) :
  platform h = "darwin" ->
  validatePath h wd = true ->
  JS.includes wd "{" = false -> JS.includes wd "$" = false ->
  JS.includes command "$" = false ->
  JS.singleLine wd = true -> JS.singleLine command = true ->
  launchTerminal h
    {| Context.workingDirectory := wd;
       Context.command := command;
       Context.terminalCommand :=
         Settings.terminalCommand (getDefaultSettings (platform h)) |}
  = spawnTerminal h "osascript"
      ["-e"; "tell application " ++ dq ++ "Terminal" ++ dq ++ " to do script "
             ++ dq ++ "cd " ++ wd ++ " && " ++ command ++ dq]
      false.
Proof.
  intros Hd Hv Hb Hs Hc Hlw Hlc. rewrite launchTerminal_unfold.
  cbn [Context.workingDirectory]. rewrite Hv, Hd.
  assert (Ht : substitutePlaceholders
                 {| Context.workingDirectory := wd;
                    Context.command := command;
                    Context.terminalCommand :=
                      Settings.terminalCommand (getDefaultSettings "darwin") |}
               = "osascript" ++ " " ++ "-e" ++ " " ++ "'"
                 ++ ("tell application " ++ dq ++ "Terminal" ++ dq
                     ++ " to do script " ++ dq ++ "cd " ++ wd ++ " && "
                     ++ command ++ dq) ++ "'").
  { transitivity
      (("osascript -e 'tell application " ++ dq ++ "Terminal" ++ dq
        ++ " to do script " ++ dq ++ "cd ")
       ++ wd ++ " && " ++ command ++ dq ++ "'").
    - apply (substitute_DIR_then_CMD
               ("osascript -e 'tell application " ++ dq ++ "Terminal" ++ dq
                ++ " to do script " ++ dq ++ "cd ")
               " && " (dq ++ "'") wd command); reflexivity || assumption.
    - cbn [append dq]. rewrite !append_assoc.
      cbn [append]. rewrite !append_assoc. reflexivity. }
  rewrite Ht, resolveCommand_darwin.
  rewrite includes_startsWith by apply startsWith_append.
  rewrite exec_scriptRegExp;
    [reflexivity | discriminate | reflexivity | discriminate | reflexivity
    | discriminate |].
  rewrite !singleLine_app, Hlw, Hlc. reflexivity.
Qed.

Lemma launchTerminal_default_template_darwin_witness :
  launchTerminal (posixHost "darwin" spawnOk noDirectory)
    {| Context.workingDirectory := "/Users/me/vault";
       Context.command := "claude-code";
       Context.terminalCommand := Settings.terminalCommand (getDefaultSettings "darwin") |}
  = spawnTerminal (posixHost "darwin" spawnOk noDirectory) "osascript"
      ["-e"; "tell application " ++ dq ++ "Terminal" ++ dq ++ " to do script "
             ++ dq ++ "cd /Users/me/vault && claude-code" ++ dq]
      false.
Proof.
  apply (launchTerminal_default_template_darwin
           (posixHost "darwin" spawnOk noDirectory) "/Users/me/vault" "claude-code");
    reflexivity.
Defined.

(** ** Further properties: what the expression captures *)

Lemma startsWith_split (s l : string) :
  JS.startsWith s l = true -> s = l ++ JS.drop (String.length l) s.
Proof.
  unfold JS.startsWith. revert s. induction l as [| a l IH]; intros s H.
  - reflexivity.
  - destruct s as [| c s]; [discriminate H |].
    cbn [prefix] in H. destruct (ascii_dec a c) as [<- | _]; [| discriminate H].
    cbn [append String.length JS.drop]. rewrite <- (IH s H). reflexivity.
Qed.

Section MatcherSound.

Variables (cap r : string) (k : RegExp.Cont).

Lemma run_Lit_sound (l s : string) :
  RegExp.run (RegExp.Lit l) s cap k = Some r ->
  exists rest, s = l ++ rest /\ k rest cap = Some r.
Proof.
  cbn [RegExp.run]. destruct (JS.startsWith s l) eqn:Hp; [| discriminate].
  intros Hk. exists (JS.drop (String.length l) s).
  split; [apply startsWith_split, Hp | exact Hk].
Qed.

(** A greedy repetition that succeeds has taken a run of the class and
    left the rest to the continuation. *)
Lemma star_sound (cls : ascii -> bool) (all : string -> bool) (s : string) :
  all "" = true ->
  (forall c t, all (String c t) = cls c && all t) ->
  RegExp.star cls s cap k = Some r ->
  exists taken rest, s = taken ++ rest /\ all taken = true /\ k rest cap = Some r.
Proof.
  intros Hnil Hcons. induction s as [| c s IH]; cbn [RegExp.star]; intros H.
  - exists "", "". repeat split; assumption.
  - destruct (cls c) eqn:Hc.
    + destruct (RegExp.star cls s cap k) as [r' |] eqn:Hs.
      * destruct (IH H) as [taken [rest [-> [Ht Hk]]]].
        exists (String c taken), rest. split; [reflexivity |].
        split; [rewrite Hcons, Hc, Ht; reflexivity | exact Hk].
      * exists "", (String c s). repeat split; assumption.
    + exists "", (String c s). repeat split; assumption.
Qed.

Lemma run_Plus_sound (cls : ascii -> bool) (all : string -> bool) (s : string) :
  all "" = true ->
  (forall c t, all (String c t) = cls c && all t) ->
  RegExp.run (RegExp.Plus cls) s cap k = Some r ->
  exists taken rest,
    s = taken ++ rest /\ taken <> "" /\ all taken = true /\ k rest cap = Some r.
Proof.
  intros Hnil Hcons. cbn [RegExp.run].
  destruct s as [| c s]; [discriminate |].
  destruct (cls c) eqn:Hc; [| discriminate].
  intros H. destruct (star_sound cls all s Hnil Hcons H) as [taken [rest [-> [Ht Hk]]]].
  exists (String c taken), rest. split; [reflexivity |].
  split; [discriminate |].
  split; [rewrite Hcons, Hc, Ht; reflexivity | exact Hk].
Qed.

End MatcherSound.

(** A match of the expression at the start of a text: the text is
    [osascript], white space, [-e], white space, a quote, the captured
    script, a quote, and a rest. *)
Lemma run_scriptRegExp_sound (s g : string) :
  RegExp.run scriptRegExp s "" (fun _ cap => Some cap) = Some g ->
  exists ws1 ws2 rest,
    s = "osascript" ++ ws1 ++ "-e" ++ ws2 ++ "'" ++ g ++ "'" ++ rest
    /\ ws1 <> "" /\ JS.allWhiteSpace ws1 = true
    /\ ws2 <> "" /\ JS.allWhiteSpace ws2 = true
    /\ g <> "" /\ JS.singleLine g = true.
Proof.
  unfold scriptRegExp. rewrite run_Cat. intros H.
  apply run_Lit_sound in H. destruct H as [s1 [-> H]].
  rewrite run_Cat in H.
  apply (run_Plus_sound _ _ _ _ JS.allWhiteSpace) in H;
    [| reflexivity | reflexivity].
  destruct H as [ws1 [s2 [-> [Hne1 [Hws1 H]]]]].
  rewrite run_Cat in H. apply run_Lit_sound in H. destruct H as [s3 [-> H]].
  rewrite run_Cat in H.
  apply (run_Plus_sound _ _ _ _ JS.allWhiteSpace) in H;
    [| reflexivity | reflexivity].
  destruct H as [ws2 [s4 [-> [Hne2 [Hws2 H]]]]].
  rewrite run_Cat in H. apply run_Lit_sound in H. destruct H as [s5 [-> H]].
  rewrite run_Cat in H. cbn [RegExp.run] in H.
  change (match s5 with
          | "" => None
          | String c s' =>
              if JS.isDot c
              then RegExp.star JS.isDot s' ""
                     (fun s'0 _ =>
                        if JS.startsWith s'0 "'"
                        then Some (substring 0 (String.length s5 - String.length s'0) s5)
                        else None)
              else None
          end = Some g) in H.
  destruct s5 as [| c s5]; [discriminate H |].
  destruct (JS.isDot c) eqn:Hc; [| discriminate H].
  apply (star_sound _ _ _ _ JS.singleLine) in H; [| reflexivity | reflexivity].
  destruct H as [taken [s6 [-> [Ht H]]]].
  destruct (JS.startsWith s6 "'") eqn:Hq; [| discriminate H].
  apply startsWith_split in Hq.
  set (rest := JS.drop (String.length "'") s6) in Hq. clearbody rest.
  assert (Hg : substring 0
                 (String.length (String c taken ++ s6) - String.length s6)
                 (String c taken ++ s6) = g)
    by (injection H as H; exact H).
  rewrite substring_append_left in Hg. subst g s6.
  exists ws1, ws2, rest.
  split.
  - reflexivity.
  - repeat split; try assumption; try discriminate.
    cbn [JS.singleLine]. rewrite Hc, Ht. reflexivity.
Qed.

Lemma exec_sound (r : RegExp.regex) (s g : string) :
  RegExp.exec r s = Some g ->
  exists before s', s = before ++ s'
                    /\ RegExp.run r s' "" (fun _ cap => Some cap) = Some g.
Proof.
  induction s as [| c s IH]; rewrite exec_unfold; intros H.
  - destruct (RegExp.run r "" "" _) as [g' |] eqn:Hr; [| discriminate H].
    exists "", "". split; [reflexivity | congruence].
  - destruct (RegExp.run r (String c s) "" _) as [g' |] eqn:Hr.
    + exists "", (String c s). split; [reflexivity | congruence].
    + destruct (IH H) as [before [s' [-> Hs]]].
      exists (String c before), s'. split; [reflexivity | exact Hs].
Qed.

Lemma includes_app_right (a b pat : string) :
  JS.includes b pat = true -> JS.includes (a ++ b) pat = true.
Proof.
  intros H. induction a as [| c a IH]; [exact H |].
  cbn [append JS.includes]. rewrite IH. apply orb_true_r.
Qed.

(** X11: whenever the expression matches, the script handed to
    [osascript] is a text of the template itself: one that stands between
    two quotes after [osascript], white space, [-e] and white space.  The
    script is not empty and holds no line terminator. *)
Theorem resolveCommand_darwin_captured (terminalCommand script : string) :
  RegExp.exec scriptRegExp terminalCommand = Some script ->
  resolveCommand "darwin" terminalCommand = ("osascript", ["-e"; script], false)
  /\ script <> "" /\ JS.singleLine script = true
  /\ exists before ws1 ws2 rest,
       terminalCommand
       = before ++ "osascript" ++ ws1 ++ "-e" ++ ws2 ++ "'" ++ script ++ "'" ++ rest
       /\ ws1 <> "" /\ JS.allWhiteSpace ws1 = true
       /\ ws2 <> "" /\ JS.allWhiteSpace ws2 = true.
Proof.
  intros He.
  destruct (exec_sound _ _ _ He) as [before [s' [Hs Hr]]].
  destruct (run_scriptRegExp_sound _ _ Hr)
    as [ws1 [ws2 [rest [Hs' [Hne1 [Hws1 [Hne2 [Hws2 [Hne Hl]]]]]]]]].
  subst s'. split; [| split; [exact Hne | split; [exact Hl |]]].
  - rewrite resolveCommand_darwin, He, Hs.
    rewrite includes_app_right; [reflexivity |].
    apply includes_startsWith, startsWith_append.
  - exists before, ws1, ws2, rest. repeat split; assumption.
Qed.

Lemma resolveCommand_darwin_captured_witness :
  resolveCommand "darwin" "sudo osascript  -e 'say 1' -e 'say 2' &"
  = ("osascript", ["-e"; "say 1' -e 'say 2"], false).
Proof.
  apply (resolveCommand_darwin_captured
           "sudo osascript  -e 'say 1' -e 'say 2' &" "say 1' -e 'say 2").
  reflexivity.
Defined.

(** ** Further properties: the path check on absolute paths *)

(** Two consecutive dots do not reach across a separator. *)
Lemma includes_dots_separator (a b : string) :
  JS.includes (a ++ String "/" b) ".." = JS.includes a ".." || JS.includes b "..".
Proof.
  induction a as [| c a IH].
  - cbn [append JS.includes JS.startsWith prefix orb].
    destruct (ascii_dec "." "/") as [H | _]; [discriminate H | reflexivity].
  - cbn [append JS.includes]. rewrite IH, orb_assoc. f_equal. f_equal.
    unfold JS.startsWith. cbn [prefix].
    destruct (ascii_dec "." c) as [_ | _]; [| reflexivity].
    destruct a as [| d a]; cbn [append prefix].
    + destruct (ascii_dec "." "/") as [H | _]; [discriminate H | reflexivity].
    + destruct (ascii_dec "." d); [| reflexivity].
      rewrite !prefix_nil. reflexivity.
Qed.

Lemma includes_dots_concat (segments : list string) :
  JS.includes (String.concat "/" segments) ".." = true ->
  exists seg, In seg segments /\ JS.includes seg ".." = true.
Proof.
  induction segments as [| x xs IH]; [discriminate |].
  destruct xs as [| y ys].
  - intros H. exists x. split; [left; reflexivity | exact H].
  - change (String.concat "/" (x :: y :: ys))
      with (x ++ String "/" (String.concat "/" (y :: ys))).
    rewrite includes_dots_separator. intros H.
    apply orb_true_iff in H. destruct H as [H | H].
    + exists x. split; [left; reflexivity | exact H].
    + destruct (IH H) as [seg [Hin Hs]]. exists seg.
      split; [right; exact Hin | exact Hs].
Qed.

(** Below the root no parent segment is kept: the segments that
    [normalizeString] keeps are segments of the path other than [..]. *)
Lemma fold_step_root (all segments stack : list string) :
  (forall s, In s segments -> In s all) ->
  (forall s, In s stack -> In s all /\ s <> "..") ->
  forall s, In s (fold_left (PosixPath.step false) segments stack) ->
            In s all /\ s <> "..".
Proof.
  revert stack. induction segments as [| seg segments IH]; intros stack Hall Hst.
  - exact Hst.
  - cbn [fold_left]. apply IH.
    + intros s Hs. apply Hall. right; exact Hs.
    + unfold PosixPath.step.
      destruct ((seg =? "") || (seg =? ".")); [exact Hst |].
      destruct (String.eqb_spec seg "..") as [-> | Hne].
      * destruct stack as [| top rest]; [intros s [] |].
        destruct (top =? ".."); [exact Hst |].
        intros s Hs. apply Hst. right; exact Hs.
      * intros s [<- | Hs]; [| apply Hst, Hs].
        split; [apply Hall; left; reflexivity | exact Hne].
Qed.

(** X12: on a POSIX host an absolute path is never refused for a parent
    segment.  When [validatePath] refuses an absolute path, the path has a
    segment other than [..] with two consecutive dots inside, such as
    [foo..bar] or [...]. *)
Theorem validatePath_absolute_refused
    (platform path : string)
    (spawn : string -> list string -> SpawnOptions -> SpawnBehaviour)
    (isDirectory : string -> bool) :
  JS.startsWith path "/" = true ->
  validatePath (posixHost platform spawn isDirectory) path = false ->
  exists seg, In seg (PosixPath.split path)
              /\ seg <> ".." /\ JS.includes seg ".." = true.
Proof.
  intros Habs Hv.
  destruct path as [| c0 path0]; [discriminate Habs |].
  unfold JS.startsWith in Habs. cbn [prefix] in Habs.
  destruct (ascii_dec "/" c0) as [<- | _]; [| discriminate Habs].
  unfold validatePath in Hv. cbn [normalize posixHost] in Hv.
  destruct (JS.includes (PosixPath.normalize (String "/" path0)) "..") eqn:Hi;
    [| discriminate Hv].
  clear Hv. unfold PosixPath.normalize in Hi.
  change (("/" =? "/")%char) with true in Hi. cbn [negb] in Hi.
  set (kept := rev (fold_left (PosixPath.step false)
                      (PosixPath.split (String "/" path0)) [])) in *.
  assert (Hkept : JS.includes (String.concat "/" kept) ".." = true).
  { unfold PosixPath.normalizeString in Hi. fold kept in Hi.
    destruct (String.concat "/" kept =? ""); [discriminate Hi |].
    destruct (PosixPath.isSlash _).
    - change ("/" ++ String.concat "/" kept ++ "/")
        with ("" ++ String "/" (String.concat "/" kept ++ String "/" "")) in Hi.
      rewrite !includes_dots_separator in Hi.
      cbn [JS.includes JS.startsWith prefix orb] in Hi.
      rewrite orb_false_r in Hi. exact Hi.
    - change ("/" ++ String.concat "/" kept)
        with ("" ++ String "/" (String.concat "/" kept)) in Hi.
      rewrite includes_dots_separator in Hi. exact Hi. }
  destruct (includes_dots_concat _ Hkept) as [seg [Hin Hs]].
  exists seg. unfold kept in Hin. apply in_rev in Hin.
  destruct (fold_step_root (PosixPath.split (String "/" path0))
              (PosixPath.split (String "/" path0)) []
              (fun s H => H) (fun s H => match H with end) seg Hin)
    as [Hsplit Hne].
  split; [exact Hsplit | split; [exact Hne | exact Hs]].
Qed.

Lemma validatePath_absolute_refused_witness :
  exists seg, In seg (PosixPath.split "/vault/../notes/v1..v2")
              /\ seg <> ".." /\ JS.includes seg ".." = true.
Proof.
  apply (validatePath_absolute_refused "linux" "/vault/../notes/v1..v2"
           spawnOk noDirectory); reflexivity.
Defined.

(** ** Further properties: the launch context *)

Lemma trimStart_allWhiteSpace (s : string) :
  JS.allWhiteSpace (JS.trimStart s) = JS.allWhiteSpace s.
Proof.
  induction s as [| c s IH]; [reflexivity |].
  cbn [JS.trimStart]. destruct (JS.isWhiteSpace c) eqn:Hc; [| reflexivity].
  cbn [JS.allWhiteSpace]. rewrite Hc, IH. reflexivity.
Qed.

(** [trim] leaves nothing exactly of a text of white space. *)
Lemma truthy_trim (s : string) :
  JS.truthy (JS.trim s) = negb (JS.allWhiteSpace s).
Proof.
  unfold JS.trim. rewrite <- (trimStart_allWhiteSpace s).
  destruct (JS.trimStart s) as [| c t]; [reflexivity |].
  cbn [JS.trimEnd]. destruct (JS.allWhiteSpace (String c t)); reflexivity.
Qed.

(** X13: the context built for a file.  The working directory is the
    vault path joined with the folder of the file, the template is the
    one of the settings.  Additional arguments made of white space only
    are left out, and the command is the Claude command alone, without a
    trailing space; any other additional arguments follow the command
    after one space, as they were typed, untrimmed. *)
Theorem buildLaunchContext_built (h : Host) (app : App) (file : TFile)
    (settings : LauncherSettings) (context : LaunchContext) :
  buildLaunchContext h app file settings = Normal context ->
  (exists vaultPath folder,
      vault_adapter app = FileSystemAdapter vaultPath
      /\ parent file = Some folder
      /\ Context.workingDirectory context = join h vaultPath (path folder))
  /\ Context.terminalCommand context = Settings.terminalCommand settings
  /\ Context.command context
     = if JS.allWhiteSpace (Settings.additionalArgs settings)
       then Settings.claudeCommand settings
       else Settings.claudeCommand settings ++ " "
            ++ Settings.additionalArgs settings.
Proof.
  unfold buildLaunchContext.
  destruct (vault_adapter app) as [vaultPath |]; [| discriminate].
  destruct (parent file) as [folder |]; [| discriminate].
  intros H. injection H as <-.
  cbn [Context.workingDirectory Context.terminalCommand Context.command].
  split; [exists vaultPath, folder; repeat split |].
  split; [reflexivity |].
  rewrite truthy_trim.
  destruct (JS.allWhiteSpace (Settings.additionalArgs settings)); reflexivity.
Qed.

Lemma buildLaunchContext_built_witness :
  exists context,
    buildLaunchContext (posixHost "linux" spawnOk noDirectory)
      {| vault_adapter := FileSystemAdapter "/home/me/vault" |}
      {| name := "CLAUDE.md"; parent := Some {| path := "notes" |} |}
      {| Settings.terminalCommand := "xterm -e {CMD}";
         Settings.claudeCommand := "claude-code";
         Settings.additionalArgs := " --verbose " |}
    = Normal context
    /\ Context.command context = "claude-code  --verbose ".
Proof.
  eexists. split; [reflexivity |].
  apply (buildLaunchContext_built (posixHost "linux" spawnOk noDirectory)
           {| vault_adapter := FileSystemAdapter "/home/me/vault" |}
           {| name := "CLAUDE.md"; parent := Some {| path := "notes" |} |}
           {| Settings.terminalCommand := "xterm -e {CMD}";
              Settings.claudeCommand := "claude-code";
              Settings.additionalArgs := " --verbose " |}).
  reflexivity.
Defined.

(** ** Further properties: the settings object *)

Lemma write_same (heap : Heap) (r : Ref) (s : LauncherSettings) :
  write heap r s r = s.
Proof. unfold write. rewrite Nat.eqb_refl. reflexivity. Qed.

Lemma write_other (heap : Heap) (r r' : Ref) (s : LauncherSettings) :
  r' <> r -> write heap r s r' = heap r'.
Proof.
  intros Hn. unfold write. apply Nat.eqb_neq in Hn. rewrite Hn. reflexivity.
Qed.

(** Every handler writes the settings it leaves in memory to
    [data.json]. *)
Lemma handle_saved (platform : string) (event : SettingsEvent) (p : Plugin) :
  dataJson (handle platform event p)
  = Some (storeSettings (pluginView (handle platform event p))).
Proof. destruct event; reflexivity. Qed.

Lemma assignSettings_stored (defaults s : LauncherSettings) :
  assignSettings defaults (Some (storeSettings s)) = s.
Proof. destruct s; reflexivity. Qed.

(** X14: the settings survive a restart.  After any event of the settings
    tab, loading the plugin again, on whatever platform, gives the settings
    the tab had: each of the three fields comes back as written, and no
    default is put in its place, not even for an empty field or for a
    template without placeholders. *)
Theorem onload_after_handle (platform platform' : string)
    (event : SettingsEvent) (p : Plugin) :
  pluginView (onload platform' (dataJson (handle platform event p)))
  = pluginView (handle platform event p).
Proof.
  rewrite handle_saved. unfold onload, pluginView at 1. cbn [heap plugin_settings].
  apply assignSettings_stored.
Qed.

(** While no reset happens, the tab and the menu handlers hold the same
    object. *)
Lemma handleAll_same_object (platform : string) (events : list SettingsEvent)
    (p : Plugin) :
  forallb (fun e => negb (isReset e)) events = true ->
  command_settings p = plugin_settings p ->
  command_settings (handleAll platform events p)
  = plugin_settings (handleAll platform events p).
Proof.
  unfold handleAll. revert p.
  induction events as [| e events IH]; intros p Hno Heq; [exact Heq |].
  cbn [forallb] in Hno. apply andb_true_iff in Hno. destruct Hno as [He Hno].
  cbn [fold_left]. apply (IH _ Hno).
  destruct e; [exact Heq | exact Heq | exact Heq | discriminate He].
Qed.

(** X15: as long as the settings were not reset, every change made in the
    settings tab reaches the menu handlers: a launch from the menu uses
    the settings the tab shows. *)
Theorem menu_sees_changes (platform : string) (loaded : option StoredData)
    (events : list SettingsEvent) (h : Host) (app : App) (file : TFile) :
  forallb (fun e => negb (isReset e)) events = true ->
  let p := handleAll platform events (onload platform loaded) in
  commandView p = pluginView p
  /\ menuItemOnClick h app file p = launchClaudeCode h app file (pluginView p).
Proof.
  intros Hno p.
  assert (H : commandView p = pluginView p).
  { unfold commandView, pluginView, p.
    rewrite handleAll_same_object; [reflexivity | exact Hno | reflexivity]. }
  split; [exact H |]. unfold menuItemOnClick. rewrite H. reflexivity.
Qed.

Lemma menu_sees_changes_witness :
  Settings.claudeCommand
    (commandView
       (handleAll "linux"
          [ChangeClaudeCommand "npx claude-code"; ChangeAdditionalArgs "--verbose"]
          (onload "linux" None)))
  = "npx claude-code".
Proof.
  destruct (menu_sees_changes "linux" None
              [ChangeClaudeCommand "npx claude-code"; ChangeAdditionalArgs "--verbose"]
              (posixHost "linux" spawnOk noDirectory)
              {| vault_adapter := FileSystemAdapter "/home/me/vault" |}
              {| name := "CLAUDE.md"; parent := Some {| path := "notes" |} |}
              eq_refl) as [H _].
  rewrite H. reflexivity.
Defined.

(** Once the tab holds a later object than the menu handlers, no event
    changes what the menu handlers see. *)
Lemma handleAll_stale (platform : string) (events : list SettingsEvent)
    (p : Plugin) :
  command_settings p < plugin_settings p -> plugin_settings p < nextRef p ->
  commandView (handleAll platform events p) = commandView p.
Proof.
  unfold handleAll. revert p.
  induction events as [| e events IH]; intros p Hlt Hfree; [reflexivity |].
  cbn [fold_left].
  assert (Hstep : command_settings (handle platform e p)
                  < plugin_settings (handle platform e p)
                  /\ plugin_settings (handle platform e p)
                     < nextRef (handle platform e p)
                  /\ commandView (handle platform e p) = commandView p).
  { unfold commandView.
    destruct e; cbn [handle saveSettings heap nextRef plugin_settings command_settings];
      (split; [lia |]); (split; [lia |]); apply write_other; lia. }
  destruct Hstep as [H1 [H2 H3]]. rewrite (IH _ H1 H2). exact H3.
Qed.

Lemma handleAll_wellFormed (platform : string) (events : list SettingsEvent)
    (p : Plugin) :
  command_settings p < nextRef p -> plugin_settings p < nextRef p ->
  command_settings (handleAll platform events p) < nextRef (handleAll platform events p)
  /\ plugin_settings (handleAll platform events p)
     < nextRef (handleAll platform events p).
Proof.
  unfold handleAll. revert p.
  induction events as [| e events IH]; intros p Hc Hp; [split; assumption |].
  cbn [fold_left]. apply IH;
    destruct e; cbn [handle saveSettings nextRef plugin_settings command_settings];
    lia.
Qed.

Lemma handleAll_app (platform : string) (es1 es2 : list SettingsEvent) (p : Plugin) :
  handleAll platform (es1 ++ es2)%list p
  = handleAll platform es2 (handleAll platform es1 p).
Proof. unfold handleAll. apply fold_left_app. Qed.

(** X16: a reset cuts the menu handlers off from the settings tab.  The
    reset puts a new object in [this.settings], and the menu handlers keep
    the old one: whatever is changed after the reset, a launch from the
    menu uses the settings as they were just before the reset, not the
    defaults and not the later changes. *)
Theorem menu_stale_after_reset (platform : string) (loaded : option StoredData)
    (before after : list SettingsEvent) (h : Host) (app : App) (file : TFile) :
  let p0 := onload platform loaded in
  let p := handleAll platform (before ++ ResetToDefaults :: after)%list p0 in
  commandView p = commandView (handleAll platform before p0)
  /\ menuItemOnClick h app file p
     = menuItemOnClick h app file (handleAll platform before p0).
Proof.
  cbv zeta.
  assert (H : commandView
                (handleAll platform (before ++ ResetToDefaults :: after)%list
                   (onload platform loaded))
              = commandView (handleAll platform before (onload platform loaded))).
  { rewrite handleAll_app.
    set (q := handleAll platform before (onload platform loaded)).
    destruct (handleAll_wellFormed platform before (onload platform loaded))
      as [Hc Hp]; [cbn; lia | cbn; lia |].
    fold q in Hc, Hp.
    change (handleAll platform (ResetToDefaults :: after) q)
      with (handleAll platform after (handle platform ResetToDefaults q)).
    rewrite handleAll_stale.
    - unfold commandView.
      cbn [handle saveSettings heap command_settings].
      apply write_other. lia.
    - cbn [handle saveSettings plugin_settings command_settings]. exact Hc.
    - cbn [handle saveSettings plugin_settings nextRef]. lia. }
  split; [exact H |]. unfold menuItemOnClick. rewrite H. reflexivity.
Qed.

(** ** Further properties: the menu item *)

Ltac every_code_unit c :=
  destruct c as [[|] [|] [|] [|] [|] [|] [|] [|]]; vm_compute; reflexivity.

(** Lowering a code unit gives a small letter or the dot exactly for that
    character and, for a letter, its capital: no other code unit below 256
    is lowered onto the letters of the name. *)
Lemma toLowerChar_target (x c : ascii) :
  In x (list_ascii_of_string "claude.md") ->
  (toLowerChar c =? x)%char = sameAsciiLetter c x.
Proof.
  cbn [list_ascii_of_string In].
  intros [<- | [<- | [<- | [<- | [<- | [<- | [<- | [<- | [<- | []]]]]]]]]];
    every_code_unit c.
Qed.

Lemma toLowerCase_eqb (t s : string) :
  (forall x c, In x (list_ascii_of_string t) ->
               (toLowerChar c =? x)%char = sameAsciiLetter c x) ->
  (toLowerCase s =? t) = equalIgnoringAsciiCase s t.
Proof.
  revert s. induction t as [| x t IH]; intros s H.
  - destruct s; reflexivity.
  - destruct s as [| c s]; [reflexivity |].
    cbn [toLowerCase String.eqb equalIgnoringAsciiCase].
    rewrite (H x c) by (left; reflexivity).
    rewrite IH by (intros y d Hy; apply H; right; exact Hy).
    destruct (sameAsciiLetter c x); reflexivity.
Qed.

(** X17: the menu item is added for a file, never for a folder, and
    exactly when the name of the file is [claude.md] up to the case of its
    letters: [CLAUDE.md], [Claude.MD] and the like, and no other name.
    The [file-menu] and the [editor-menu] handlers agree. *)
Theorem menuItem_shown (file : TAbstractFile) (f : TFile) :
  (fileMenuItem file = Some f
   <-> file = AbstractFile f
       /\ equalIgnoringAsciiCase (name f) "claude.md" = true)
  /\ (editorMenuItem (Some f) = Some f
      <-> equalIgnoringAsciiCase (name f) "claude.md" = true)
  /\ editorMenuItem None = None.
Proof.
  split; [| split; [| reflexivity]].
  - unfold fileMenuItem. destruct file as [g | d].
    + rewrite (toLowerCase_eqb "claude.md" (name g)) by apply toLowerChar_target.
      destruct (equalIgnoringAsciiCase (name g) "claude.md") eqn:Hg.
      * split.
        -- intros H. injection H as <-. split; [reflexivity | exact Hg].
        -- intros [H _]. injection H as <-. reflexivity.
      * split; [discriminate |].
        intros [H Hf]. injection H as <-. congruence.
    + split; [discriminate | intros [H _]; discriminate H].
  - unfold editorMenuItem.
    rewrite (toLowerCase_eqb "claude.md" (name f)) by apply toLowerChar_target.
    destruct (equalIgnoringAsciiCase (name f) "claude.md");
      split; try reflexivity; discriminate.
Qed.

(** ** Further properties: the script when the expression does not match *)

Lemma replaceFirstFrom_at (ptail replacement pre post before : string) :
  JS.includes pre "o" = false ->
  JS.replaceFirstFrom (String "o" ptail) replacement before
    (pre ++ String "o" ptail ++ post)
  = (before ++ pre)
    ++ JS.getSubstitution (String "o" ptail) (before ++ pre) post replacement
    ++ post.
Proof.
  revert before. induction pre as [| c pre IH]; intros before H.
  - cbn [append JS.replaceFirstFrom]. rewrite append_nil_r.
    change (String "o" (ptail ++ post)) with (String "o" ptail ++ post).
    rewrite startsWith_append, drop_append. reflexivity.
  - apply includes_char_cons in H. destruct H as [Hc Hp].
    cbn [append JS.replaceFirstFrom].
    rewrite (startsWith_other_head _ _ _ _ Hc).
    rewrite (IH _ Hp), !append_assoc. reflexivity.
Qed.

(** X18: on macOS, for a template that names [osascript -e ] but does not
    match the expression (the script in double quotes, say), the script
    handed to [osascript] is the template with the words [osascript -e ]
    cut out: what stood before them and what followed, delimiters
    included. *)
Theorem resolveCommand_darwin_unmatched (pre post : string) :
  JS.includes pre "o" = false ->
  RegExp.exec scriptRegExp (pre ++ "osascript -e " ++ post) = None ->
  resolveCommand "darwin" (pre ++ "osascript -e " ++ post)
  = ("osascript", ["-e"; pre ++ post], false).
Proof.
  intros Hpre Hex. rewrite resolveCommand_darwin, Hex.
  rewrite includes_app_right
    by (apply includes_startsWith, (startsWith_append "osascript" (" -e " ++ post))).
  unfold JS.replaceFirst.
  rewrite (replaceFirstFrom_at "sascript -e " "" pre post "" Hpre).
  reflexivity.
Qed.

Lemma resolveCommand_darwin_unmatched_witness :
  resolveCommand "darwin" ("osascript -e " ++ dq ++ "beep 2" ++ dq)
  = ("osascript", ["-e"; dq ++ "beep 2" ++ dq], false).
Proof.
  apply (resolveCommand_darwin_unmatched "" (dq ++ "beep 2" ++ dq)); reflexivity.
Defined.

(** ** Further properties: from the menu to the process *)

(** X19: the first launch after installation, on Linux or a platform
    treated like it.  Without [data.json] the menu handlers hold the
    defaults, the command is [claude-code], and a click on the menu item
    of a file whose folder is accepted by [validatePath] and has neither
    brace nor dollar sign in its path starts [/bin/sh -c] with the line of
    [gnome-terminal] for that folder; when [spawn] reports no error in
    time, the one notice shown is the notice of success. *)
Theorem menuItemOnClick_fresh_install (h : Host) (vaultPath : string)
    (file : TFile) (folder : TFolder) (late : list ErrnoException) :
  platform h <> "darwin" -> platform h <> "win32" ->
  parent file = Some folder ->
  let wd := join h vaultPath (path folder) in
  validatePath h wd = true ->
  JS.includes wd "{" = false -> JS.includes wd "$" = false ->
  spawn h "/bin/sh"
    ["-c"; "gnome-terminal --working-directory=" ++ dq ++ wd ++ dq
           ++ " -- bash -c " ++ dq ++ "claude-code; exec bash" ++ dq]
    {| detached := true; stdio := "ignore"; windowsHide := true; shell := false |}
  = SpawnReturns [] late ->
  menuItemOnClick h {| vault_adapter := FileSystemAdapter vaultPath |} file
    (onload (platform h) None)
  = Fulfilled [ {| notice_message := "Claude Code launched successfully";
                   notice_duration := Some 3000%N |} ].
Proof.
  intros Hd Hw Hp wd Hv Hb Hs Hspawn.
  unfold menuItemOnClick, commandView, onload. cbn [heap command_settings].
  unfold launchClaudeCode, buildLaunchContext, assignSettings.
  rewrite Hp. cbn [vault_adapter]. fold wd.
  change (Settings.additionalArgs (getDefaultSettings (platform h))) with "".
  change (Settings.claudeCommand (getDefaultSettings (platform h)))
    with "claude-code".
  cbn [JS.trim JS.trimStart JS.trimEnd JS.truthy].
  rewrite launchTerminal_unfold. cbn [Context.workingDirectory]. rewrite Hv.
  assert (Ht : substitutePlaceholders
                 {| Context.workingDirectory := wd;
                    Context.command := "claude-code";
                    Context.terminalCommand :=
                      Settings.terminalCommand (getDefaultSettings (platform h)) |}
               = "gnome-terminal --working-directory=" ++ dq ++ wd ++ dq
                 ++ " -- bash -c " ++ dq ++ "claude-code; exec bash" ++ dq).
  { unfold getDefaultSettings. cbn [Settings.terminalCommand].
    apply String.eqb_neq in Hd, Hw. rewrite Hd, Hw.
    destruct (platform h =? "linux");
      apply (substitute_DIR_then_CMD ("gnome-terminal --working-directory=" ++ dq)
               (dq ++ " -- bash -c " ++ dq) ("; exec bash" ++ dq) wd "claude-code");
      reflexivity || assumption. }
  rewrite Ht. unfold resolveCommand.
  apply String.eqb_neq in Hd, Hw. rewrite Hd, Hw. cbn [andb].
  unfold spawnTerminal. rewrite Hspawn. reflexivity.
Qed.

Lemma menuItemOnClick_fresh_install_witness :
  menuItemOnClick (posixHost "linux" spawnOk noDirectory)
    {| vault_adapter := FileSystemAdapter "/home/me/vault" |}
    {| name := "CLAUDE.md"; parent := Some {| path := "notes" |} |}
    (onload "linux" None)
  = Fulfilled [ {| notice_message := "Claude Code launched successfully";
                   notice_duration := Some 3000%N |} ].
Proof.
  apply (menuItemOnClick_fresh_install (posixHost "linux" spawnOk noDirectory)
           "/home/me/vault"
           {| name := "CLAUDE.md"; parent := Some {| path := "notes" |} |}
           {| path := "notes" |} []);
    first [reflexivity | discriminate].
Defined.
